(** * schat: a simple chat client over the fscp secure channel engine

    Shallow embedding of [samples/schat/schat.cpp].

    The program is a thin orchestration layer: every function of the file
    either writes a line to the console, calls an operation of the external
    engine ([fscp::server]), touches the process-wide [stop_function] hook,
    or does several of these.  The embedding keeps exactly that:

    - every call that leaves the file (a console line, a mutex acquisition,
      an engine operation, a thread creation, ...) is an [event];
    - a function of the file is a computation in the monad [M], which
      threads the global [stop_function], appends the events it performs and
      ends either with a value or with a thrown [std::exception];
    - what the file cannot decide by itself (name resolution, certificate
      loading, the printing of engine types, the number of hardware
      threads, ...) is a field of the class [Platform]. *)

From Stdlib Require Import String Ascii List ZArith NArith Bool Lia.
From Stdlib Require Import Strings.Byte.
From Stdlib Require Import DecimalString.
Import ListNotations.

Local Open Scope string_scope.

Set Implicit Arguments.

(* ===================================================================== *)
(** * Text helpers: the parts of [std::string] and [std::istringstream]
      the dispatcher relies on *)
(* ===================================================================== *)

(** [line[0]]: since C++11 [operator[]] at [size()] refers to a null
    character, so the first character of the empty string is ['\0']. *)
Definition first_char (line : string) : ascii :=
  match line with
  | EmptyString => zero
  | String c _ => c
  end.

(** [line.substr(1)] for a string of length at least one (the only use in
    the file is guarded by [line[0] == '!']). *)
Definition substr1 (line : string) : string :=
  match line with
  | EmptyString => EmptyString
  | String _ rest => rest
  end.

(** [std::isspace] in the classic locale: space, [\t], [\n], [\v], [\f],
    [\r]. *)
Definition isspace (c : ascii) : bool :=
  let n := N_of_ascii c in
  (n =? 32)%N || ((9 <=? n)%N && (n <=? 13)%N).

(** The whitespace skipping done by the sentry of a formatted input. *)
Fixpoint skipws (s : string) : string :=
  match s with
  | EmptyString => EmptyString
  | String c rest => if isspace c then skipws rest else s
  end.

(** The characters [operator>>] stores: the longest prefix free of
    whitespace; the second component is what stays in the stream. *)
Fixpoint take_word (s : string) : string * string :=
  match s with
  | EmptyString => (EmptyString, EmptyString)
  | String c rest =>
      if isspace c then (EmptyString, s)
      else let (w, r) := take_word rest in (String c w, r)
  end.

(** [iss >> word] on a [std::istringstream] whose unread characters are
    [iss]: [None] when the extraction fails (nothing but whitespace is
    left), otherwise the word and the unread rest.  A stream on which an
    extraction failed, or that reached its end, has no unread character
    left, so every later extraction fails as well: the stream state needs no
    separate flag. *)
Definition extract (iss : string) : option (string * string) :=
  match skipws iss with
  | EmptyString => None
  | String c rest => Some (take_word (String c rest))
  end.

(** [iss >> word] into a default-constructed (empty) [std::string] whose
    result is not tested: a failed extraction leaves [word] empty. *)
Definition extract_or_empty (iss : string) : string * string :=
  match extract iss with
  | Some wr => wr
  | None => (EmptyString, EmptyString)
  end.

(** Fewer than two words can be extracted from [iss]. *)
Definition fewer_than_two_words (iss : string) : Prop :=
  extract iss = None \/
  exists host rest, extract iss = Some (host, rest) /\ extract rest = None.

(** Decimal printing of an unsigned number, as [operator<<] does. *)
Definition show_N (n : N) : string := NilZero.string_of_uint (N.to_uint n).

(** [std::cout << b] for a [bool] without [boolalpha]. *)
Definition show_bool (b : bool) : string := if b then "1" else "0".

(* ===================================================================== *)
(** * The environment of the program *)
(* ===================================================================== *)

(** The message of a caught [std::exception] ([ex.what()]). *)
Definition exn := string.

(** [boost::system::error_code]: [if (ec)] tests the value; [message()] is
    the text that is printed. *)
Record error_code := { ec_value : Z; ec_message : string }.

Definition ec_set (ec : error_code) : bool := negb (ec_value ec =? 0)%Z.

(** [fscp::channel_number_type] is an unsigned byte. *)
Definition channel_number_type := N.

(** Modelled from the spec: the header declaring [fscp::CHANNEL_NUMBER_0] is
    not part of the sources; the specification calls it the fixed default
    channel, number 0. *)
Definition CHANNEL_NUMBER_0 : channel_number_type := 0%N.

(** The signal numbers of [<csignal>] (POSIX values). *)
Definition SIGINT : Z := 2.
Definition SIGABRT : Z := 6.
Definition SIGTERM : Z := 15.

(** The exit statuses of [<cstdlib>]. *)
Definition EXIT_SUCCESS : Z := 0.
Definition EXIT_FAILURE : Z := 1.

(** Everything the file takes from boost.asio, cryptoplus, fscp and the
    operating system. *)
Class Platform := {
  (** [fscp::server::ep_type], a UDP endpoint, and its [operator<<] *)
  ep_type : Type;
  show_ep : ep_type -> string;
  (** [fscp::server::cert_type] and [cert.subject().oneline()] *)
  cert_type : Type;
  subject_oneline : cert_type -> string;
  (** [cryptoplus::pkey::pkey] *)
  pkey_type : Type;
  (** [boost::posix_time::time_duration] and its [operator<<] *)
  time_duration : Type;
  show_duration : time_duration -> string;
  (** [fscp::algorithm_info_type] and its [operator<<] *)
  algorithm_info_type : Type;
  show_algorithm_info : algorithm_info_type -> string;
  (** [fscp::cipher_algorithm_type] *)
  cipher_algorithm_type : Type;
  (** [*resolver.resolve(query(host, port))]: the first endpoint, or the
      exception the resolver throws *)
  resolve : string -> string -> ep_type + exn;
  (** [boost::lexical_cast<fscp::cipher_algorithm_type>] *)
  lexical_cast_calg : string -> cipher_algorithm_type + exn;
  (** [certificate::from_certificate(file::open(name, "r"))] *)
  load_certificate : string -> cert_type + exn;
  (** [pkey::from_private_key(file::open(name, "r"))] *)
  load_private_key : string -> pkey_type + exn;
  (** [server.open(listen_ep)]: [None] when the socket was opened *)
  server_open : ep_type -> option exn;
  (** [signal(code, handler) != SIG_ERR] *)
  signal_installed : Z -> bool;
  (** [boost::thread::hardware_concurrency()] *)
  hardware_concurrency : N;
  (** whether [BOOST_ASIO_HAS_POSIX_STREAM_DESCRIPTOR] is defined *)
  has_posix_stream_descriptor : bool
}.

(* ===================================================================== *)
(** * Events and the monad of the program *)
(* ===================================================================== *)

Inductive stream := Cout | Cerr.

(** What [stop_function] can be bound to (lines 318 and 322). *)
Inductive action :=
| CloseInput    (* boost::bind(&stream_descriptor::close, &input) *)
| CloseServer.  (* boost::bind(&fscp::server::close, &server) *)

Section Program.

Context {P : Platform}.

(** The completion handlers the file hands to asynchronous operations. *)
Inductive completion :=
| SimpleHandler (msg : string)   (* boost::bind(&simple_handler, msg, _1) *)
| MultipleHandler                (* multiple_handler *)
| HelloResponseHandler (ep : ep_type).
    (* boost::bind(&on_hello_response, boost::ref(server), ep, _1, _2) *)

Inductive event :=
| Lock                     (* mutex::scoped_lock lock(output_mutex) *)
| Unlock                   (* the destructor of that lock *)
| Write (s : stream) (line : string)    (* s << ... << std::endl *)
| AsyncGreet (ep : ep_type) (h : completion)
| AsyncIntroduceTo (ep : ep_type) (h : completion)
| AsyncRequestSession (ep : ep_type) (h : completion)
| AsyncSendDataToAll (channel : channel_number_type) (data : list byte)
                     (h : completion)
| ServerClose              (* server.close(), called by name *)
| StopFunctionCall (a : action)   (* stop_function(), bound to [a] *)
| SignalRegistered (code : Z)
| SetCipherCapabilities (calgs : list cipher_algorithm_type)
| ServerOpen (ep : ep_type)
| SetCallbacks
| CreateThread             (* threads.create_thread(io_service::run) *)
| AsyncReadUntil           (* async_read_until(input, input_buffer, '\n', ...) *)
| JoinAll.                 (* threads.join_all() *)

(** The result of running a computation: the events performed, the value of
    [stop_function] afterwards, and the returned value or the exception that
    escaped. *)
Record outcome (A : Type) := Outcome {
  events : list event;
  hook : option action;
  value : A + exn
}.

Definition M (A : Type) : Type := option action -> outcome A.

Definition ret {A} (a : A) : M A := fun h => Outcome [] h (inl a).

Definition throw {A} (e : exn) : M A := fun h => Outcome [] h (inr e).

Definition bind {A B} (m : M A) (k : A -> M B) : M B :=
  fun h =>
    match m h with
    | Outcome evs h' (inl a) =>
        match k a h' with
        | Outcome evs' h'' v => Outcome (evs ++ evs') h'' v
        end
    | Outcome evs h' (inr e) => Outcome evs h' (inr e)
    end.

(** [try { body } catch (std::exception& ex) { handler(ex) }] *)
Definition try_catch {A} (body : M A) (handler : exn -> M A) : M A :=
  fun h =>
    match body h with
    | Outcome evs h' (inl a) => Outcome evs h' (inl a)
    | Outcome evs h' (inr e) =>
        match handler e h' with
        | Outcome evs' h'' v => Outcome (evs ++ evs') h'' v
        end
    end.

Definition emit (e : event) : M unit := fun h => Outcome [e] h (inl tt).

Definition get_stop_function : M (option action) :=
  fun h => Outcome [] h (inl h).

Definition set_stop_function (a : option action) : M unit :=
  fun _ => Outcome [] a (inl tt).

(** A call through an engine or library function that may throw. *)
Definition lift {A} (r : A + exn) : M A :=
  match r with
  | inl a => ret a
  | inr e => throw e
  end.

End Program.

Declare Scope schat_scope.
Delimit Scope schat_scope with schat.
Notation "x <- c1 ;; c2" := (bind c1 (fun x => c2))
  (at level 61, c1 at next level, right associativity) : schat_scope.
Notation "c1 ;; c2" := (bind c1 (fun _ => c2))
  (at level 61, right associativity) : schat_scope.
Local Open Scope schat_scope.

Section Handlers.

Context {P : Platform}.

Definition write (s : stream) (line : string) : M unit := emit (Write s line).

(** A block that starts with [mutex::scoped_lock lock(output_mutex)]: the
    mutex is released when the block is left, also by an exception. *)
Definition scoped_lock {A} (body : M A) : M A :=
  fun h =>
    match body h with
    | Outcome evs h' v => Outcome (Lock :: evs ++ [Unlock]) h' v
    end.

(** [try { body } catch (std::exception&) { }] *)
Definition swallow_exceptions (body : M unit) : M unit :=
  try_catch body (fun _ => ret tt).

(** ** The stop hook and the signal handler (lines 22-45) *)

Definition handled_signal (code : Z) : bool :=
  (code =? SIGTERM)%Z || (code =? SIGINT)%Z || (code =? SIGABRT)%Z.

Definition signal_handler (code : Z) : M unit :=
  if handled_signal code then
    f <- get_stop_function ;;
    match f with
    | Some a =>
        write Cerr "Signal caught: stopping..." ;;
        emit (StopFunctionCall a) ;;
        set_stop_function None
    | None => ret tt
    end
  else ret tt.

Definition register_one (code : Z) (name : string) : M bool :=
  if signal_installed code then
    emit (SignalRegistered code) ;; ret true
  else
    write Cerr ("Failed to catch " ++ name ++ " signals.") ;; ret false.

Definition register_signal_handlers : M bool :=
  ok <- register_one SIGTERM "SIGTERM" ;;
  if negb ok then ret false else
  ok <- register_one SIGINT "SIGINT" ;;
  if negb ok then ret false else
  ok <- register_one SIGABRT "SIGABRT" ;;
  if negb ok then ret false else
  ret true.

(** ** Completion handlers (lines 70-85) *)

Definition simple_handler (msg : string) (ec : error_code) : M unit :=
  scoped_lock (write Cout (msg ++ ": " ++ ec_message ec)).

Fixpoint write_results (results : list (ep_type * error_code)) : M unit :=
  match results with
  | [] => ret tt
  | (ep, ec) :: rest =>
      write Cout (show_ep ep ++ ": " ++ ec_message ec) ;;
      write_results rest
  end.

(** [results] lists the entries of the [std::map] in iteration order. *)
Definition multiple_handler (results : list (ep_type * error_code)) : M unit :=
  scoped_lock (write_results results).

(** ** Handlers of inbound events (lines 87-183) *)

Definition on_hello (sender : ep_type) (default_accept : bool) : M bool :=
  scoped_lock (
    write Cout ("Received HELLO request from " ++ show_ep sender) ;;
    emit (AsyncIntroduceTo sender (SimpleHandler "async_introduce_to()")) ;;
    ret default_accept).

Definition on_hello_response (sender : ep_type) (ec : error_code)
    (duration : time_duration) : M unit :=
  scoped_lock (
    if ec_set ec then
      write Cout ("Received no HELLO response from " ++ show_ep sender
                  ++ " after " ++ show_duration duration ++ ": "
                  ++ ec_message ec)
    else
      write Cout ("Received HELLO response from " ++ show_ep sender
                  ++ " after " ++ show_duration duration ++ ": "
                  ++ ec_message ec) ;;
      emit (AsyncIntroduceTo sender (SimpleHandler "async_introduce_to()")) ;;
      write Cout ("Sending a presentation message to " ++ show_ep sender)).

Definition on_presentation (sender : ep_type) (sig_cert enc_cert : cert_type)
    (is_new : bool) : M bool :=
  scoped_lock (
    write Cout ("Received PRESENTATION from " ++ show_ep sender ++ " ("
                ++ subject_oneline sig_cert ++ ") - "
                ++ (if is_new then "new" else "existing")) ;;
    emit (AsyncRequestSession sender
            (SimpleHandler "async_request_session()")) ;;
    ret true).

Definition on_session_request (sender : ep_type)
    (calgs : list cipher_algorithm_type) (default_accept : bool) : M bool :=
  scoped_lock (
    write Cout ("Received SESSION_REQUEST from " ++ show_ep sender) ;;
    ret default_accept).

Definition on_session (sender : ep_type) (calg : cipher_algorithm_type)
    (default_accept : bool) : M bool :=
  scoped_lock (
    write Cout ("Received SESSION from " ++ show_ep sender) ;;
    ret default_accept).

Definition on_session_failed (host : ep_type) (is_new : bool)
    (local remote : algorithm_info_type) : M unit :=
  scoped_lock (
    write Cout ("Session failed with " ++ show_ep host) ;;
    write Cout ("New session: " ++ show_bool is_new) ;;
    write Cout ("Local algorithms: " ++ show_algorithm_info local) ;;
    write Cout ("Remote algorithms: " ++ show_algorithm_info remote)).

Definition on_session_established (host : ep_type) (is_new : bool)
    (local remote : algorithm_info_type) : M unit :=
  scoped_lock (
    write Cout ("Session established with " ++ show_ep host) ;;
    write Cout ("New session: " ++ show_bool is_new) ;;
    write Cout ("Local algorithms: " ++ show_algorithm_info local) ;;
    write Cout ("Remote algorithms: " ++ show_algorithm_info remote)).

Definition on_session_lost (host : ep_type) : M unit :=
  scoped_lock (write Cout ("Session lost with " ++ show_ep host)).

(** The frame of [on_data] (lines 174-182): the statements of the [try]
    block run with the output mutex held, and a [std::exception] that leaves
    the block is caught by an empty handler. *)
Definition on_data_frame (block : M unit) : M unit :=
  swallow_exceptions (scoped_lock block).

(** [std::string(buffer_cast<const char*>(data), buffer_size(data))] copies
    the bytes as they are; nothing is decoded or checked. *)
Definition on_data (sender : ep_type) (channel_number : channel_number_type)
    (data : list byte) : M unit :=
  on_data_frame (
    write Cout (show_ep sender ++ " (" ++ show_N channel_number ++ "): "
                ++ string_of_list_byte data)).

(** ** The command dispatcher (lines 185-225) *)

Definition handle_read_line (line : string) : M unit :=
  if Ascii.eqb (first_char line) "!" then
    match extract (substr1 line) with
    | Some (command, iss1) =>
        if String.eqb command "connect" then
          let (host, iss2) := extract_or_empty iss1 in
          let (port, _) := extract_or_empty iss2 in
          try_catch
            (ep <- lift (resolve host port) ;;
             emit (AsyncGreet ep (HelloResponseHandler ep)) ;;
             write Cout ("Contacting " ++ show_ep ep ++ "..."))
            (fun ex =>
               write Cerr ("Unable to resolve the specified host/port: "
                           ++ ex))
        else if String.eqb command "quit" || String.eqb command "exit" then
          emit ServerClose
        else ret tt
    | None => ret tt
    end
  else
    emit (AsyncSendDataToAll CHANNEL_NUMBER_0 (list_byte_of_string line)
            MultipleHandler).

(** [handle_read_input] (lines 229-245), called when the asynchronous read
    of a line completes.  On success the [length - 1] characters before the
    newline are taken out of the buffer as [line] and the newline is
    consumed; [line] stands for those characters. *)
Definition handle_read_input (ec : error_code) (line : string) : M unit :=
  if negb (ec_set ec) then
    handle_read_line line ;;
    emit AsyncReadUntil
  else
    emit ServerClose.

(** ** The work of the thread pool *)

(** What can happen while the worker threads run [io_service::run]: a
    signal, the outcome of reading one line of standard input, an inbound
    event of the engine, or the completion of an asynchronous operation. *)
Inductive stimulus :=
| Signal (code : Z)
| InputLine (ec : error_code) (line : string)
| HelloReceived (sender : ep_type) (default_accept : bool)
| PresentationReceived (sender : ep_type) (sig_cert enc_cert : cert_type)
                       (is_new : bool)
| SessionRequestReceived (sender : ep_type)
                         (calgs : list cipher_algorithm_type)
                         (default_accept : bool)
| SessionReceived (sender : ep_type) (calg : cipher_algorithm_type)
                  (default_accept : bool)
| SessionFailed (host : ep_type) (is_new : bool)
                (local remote : algorithm_info_type)
| SessionEstablished (host : ep_type) (is_new : bool)
                     (local remote : algorithm_info_type)
| SessionLost (host : ep_type)
| DataReceived (sender : ep_type) (channel_number : channel_number_type)
               (data : list byte)
| SimpleCompleted (msg : string) (ec : error_code)
| MultipleCompleted (results : list (ep_type * error_code))
| HelloResponseCompleted (ep : ep_type) (ec : error_code)
                         (duration : time_duration).

(** The function a stimulus runs.  With POSIX stream descriptors a line of
    input completes the pending [async_read_until] (line 316); without them
    the loop of lines 328-331 posts [handle_read_line] for each line it
    reads and stops at the first failed read. *)
Definition deliver (s : stimulus) : M unit :=
  match s with
  | Signal code => signal_handler code
  | InputLine ec line =>
      if has_posix_stream_descriptor then handle_read_input ec line
      else if negb (ec_set ec) then handle_read_line line
      else ret tt
  | HelloReceived sender d => _ <- on_hello sender d ;; ret tt
  | PresentationReceived sender sig_cert enc_cert is_new =>
      _ <- on_presentation sender sig_cert enc_cert is_new ;; ret tt
  | SessionRequestReceived sender calgs d =>
      _ <- on_session_request sender calgs d ;; ret tt
  | SessionReceived sender calg d => _ <- on_session sender calg d ;; ret tt
  | SessionFailed host is_new local remote =>
      on_session_failed host is_new local remote
  | SessionEstablished host is_new local remote =>
      on_session_established host is_new local remote
  | SessionLost host => on_session_lost host
  | DataReceived sender channel_number data =>
      on_data sender channel_number data
  | SimpleCompleted msg ec => simple_handler msg ec
  | MultipleCompleted results => multiple_handler results
  | HelloResponseCompleted ep ec duration => on_hello_response ep ec duration
  end.

(** The call a completion handler stands for. *)
Definition completed (h : completion) (ec : error_code)
    (results : list (ep_type * error_code)) (duration : time_duration)
  : stimulus :=
  match h with
  | SimpleHandler msg => SimpleCompleted msg ec
  | MultipleHandler => MultipleCompleted results
  | HelloResponseHandler ep => HelloResponseCompleted ep ec duration
  end.

(** The pool handles the stimuli one at a time, each function running to
    its end before the next stimulus is taken: the runs in which two
    functions overlap are not runs of [run_workers]. *)
Fixpoint run_workers (stimuli : list stimulus) : M unit :=
  match stimuli with
  | [] => ret tt
  | s :: rest => deliver s ;; run_workers rest
  end.

(** ** [main] (lines 249-349) *)

Definition usage : string :=
  "Usage: schat <certificate> <private_key> <listen_host> <listen_port> <calg> <mdalg>".

(** [for (i = 0; i < THREAD_COUNT; ++i) threads.create_thread(...)] *)
Fixpoint create_threads (thread_count : nat) : M unit :=
  match thread_count with
  | O => ret tt
  | S n => emit CreateThread ;; create_threads n
  end.

(** [server.open(listen_ep)] *)
Definition open_server (listen_ep : ep_type) : M unit :=
  match server_open listen_ep with
  | None => emit (ServerOpen listen_ep)
  | Some e => throw e
  end.

(** [argv] holds the [argc] strings of the command line, the program name
    first; [stimuli] is what the worker threads process before
    [threads.join_all()] returns.  The initializer objects of cryptoplus
    and the unused [local_name] leave no trace; the exceptions of the
    startup are those of the cast, of the resolution, of the loading of the
    certificate and of the key, and of [server.open]. *)
Definition main (argv : list string) (stimuli : list stimulus) : M Z :=
  register_signal_handlers ;;
  try_catch
    (if negb (length argv =? 7)%nat then
       write Cerr usage ;;
       ret EXIT_FAILURE
     else
       let certificate_filename := nth 1 argv "" in
       let private_key_filename := nth 2 argv "" in
       let listen_host := nth 3 argv "" in
       let listen_port := nth 4 argv "" in
       calg <- lift (lexical_cast_calg (nth 5 argv "")) ;;
       listen_ep <- lift (resolve listen_host listen_port) ;;
       certificate <- lift (load_certificate certificate_filename) ;;
       private_key <- lift (load_private_key private_key_filename) ;;
       emit (SetCipherCapabilities [calg]) ;;
       open_server listen_ep ;;
       emit SetCallbacks ;;
       write Cout "Chat started. Type !quit to exit." ;;
       let THREAD_COUNT := hardware_concurrency in
       write Cout ("Starting client with " ++ show_N THREAD_COUNT
                   ++ " thread(s).") ;;
       create_threads (N.to_nat THREAD_COUNT) ;;
       (if has_posix_stream_descriptor then
          emit AsyncReadUntil ;;
          set_stop_function (Some CloseInput)
        else
          set_stop_function (Some CloseServer) ;;
          write Cout
            "No POSIX stream descriptors available. Press Ctrl+C twice to exit.") ;;
       run_workers stimuli ;;
       emit JoinAll ;;
       set_stop_function None ;;
       write Cout "Chat closing..." ;;
       ret EXIT_SUCCESS)
    (fun ex =>
       write Cerr ("Error: " ++ ex) ;;
       ret EXIT_FAILURE).

(** ** Observations on a trace *)

Definition count (p : event -> bool) (l : list event) : nat :=
  length (filter p l).

(** A close of the transport: [server.close()], by name or through the
    hook. *)
Definition closes_transport (e : event) : bool :=
  match e with
  | ServerClose | StopFunctionCall CloseServer => true
  | _ => false
  end.

(** A close of the input source: [input.close()], which the file only
    reaches through the hook. *)
Definition closes_input (e : event) : bool :=
  match e with
  | StopFunctionCall CloseInput => true
  | _ => false
  end.

Definition is_stop_function_call (e : event) : bool :=
  match e with
  | StopFunctionCall _ => true
  | _ => false
  end.

Definition is_broadcast (e : event) : bool :=
  match e with
  | AsyncSendDataToAll _ _ _ => true
  | _ => false
  end.

Definition is_greet (e : event) : bool :=
  match e with
  | AsyncGreet _ _ => true
  | _ => false
  end.

Definition is_request_session (e : event) : bool :=
  match e with
  | AsyncRequestSession _ _ => true
  | _ => false
  end.

Definition is_write (e : event) : bool :=
  match e with
  | Write _ _ => true
  | _ => false
  end.

Definition is_create_thread (e : event) : bool :=
  match e with
  | CreateThread => true
  | _ => false
  end.

Definition is_server_open (e : event) : bool :=
  match e with
  | ServerOpen _ => true
  | _ => false
  end.

(** Whether every console write of a trace happens between a [Lock] and
    the matching [Unlock]; [held] tells whether the mutex is held when the
    trace starts. *)
Fixpoint writes_locked (held : bool) (l : list event) : bool :=
  match l with
  | [] => true
  | Lock :: rest => writes_locked true rest
  | Unlock :: rest => writes_locked false rest
  | Write _ _ :: rest => held && writes_locked held rest
  | _ :: rest => writes_locked held rest
  end.

(** The events a function run by a worker thread, the signal handler
    apart, can perform. *)
Definition from_worker (e : event) : bool :=
  match e with
  | Lock | Unlock | Write _ _ | AsyncGreet _ _ | AsyncIntroduceTo _ _
  | AsyncRequestSession _ _ | AsyncSendDataToAll _ _ _ | ServerClose
  | AsyncReadUntil => true
  | _ => false
  end.

(** The events [register_signal_handlers] can perform. *)
Definition from_registration (e : event) : bool :=
  match e with
  | SignalRegistered _ | Write Cerr _ => true
  | _ => false
  end.

(** The events [main] can perform before it opens the socket. *)
Definition from_startup (e : event) : bool :=
  match e with
  | SetCipherCapabilities _ => true
  | _ => from_registration e
  end.

(** What [main] does between the creation of the threads and the work of
    the pool (lines 313-333): the action bound to the hook and the events
    performed. *)
Definition armed_hook : action :=
  if has_posix_stream_descriptor then CloseInput else CloseServer.

Definition arming_events : list event :=
  if has_posix_stream_descriptor then [AsyncReadUntil]
  else [Write Cout
    "No POSIX stream descriptors available. Press Ctrl+C twice to exit."].


(** The startup of [main] goes through: seven strings on the command line
    and no exception from the cast, the resolution, the loading of the
    certificate and of the key, and the opening of the socket. *)
Definition startup_succeeds (argv : list string) : Prop :=
  length argv = 7 /\
  exists calg listen_ep certificate private_key,
    lexical_cast_calg (nth 5 argv "") = inl calg /\
    resolve (nth 3 argv "") (nth 4 argv "") = inl listen_ep /\
    load_certificate (nth 1 argv "") = inl certificate /\
    load_private_key (nth 2 argv "") = inl private_key /\
    server_open listen_ep = None.

(** The startup of [main] throws [e]. *)
Definition startup_throws (argv : list string) (e : exn) : Prop :=
  lexical_cast_calg (nth 5 argv "") = inr e \/
  resolve (nth 3 argv "") (nth 4 argv "") = inr e \/
  load_certificate (nth 1 argv "") = inr e \/
  load_private_key (nth 2 argv "") = inr e \/
  exists listen_ep,
    resolve (nth 3 argv "") (nth 4 argv "") = inl listen_ep /\
    server_open listen_ep = Some e.

Definition is_signal (s : stimulus) : bool :=
  match s with
  | Signal _ => true
  | _ => false
  end.

(** What the hook can still contribute: one call while it is set. *)
Definition pending (h : option action) : nat :=
  match h with
  | Some _ => 1
  | None => 0
  end.

End Handlers.

(* ===================================================================== *)
(** * A concrete platform, for running the program on examples *)
(* ===================================================================== *)

(** A resolver in the manner of [getaddrinfo]: an empty host together with
    an empty service names nothing, an empty service alone stands for port
    0, and one host name is unknown. *)
Definition sample_resolve (host port : string) : (string * string) + exn :=
  if String.eqb host "" && String.eqb port "" then
    inr "Host not found (authoritative)"
  else if String.eqb host "nowhere.invalid" then
    inr "Host not found (authoritative)"
  else inl (host, if String.eqb port "" then "0" else port).

Definition sample_load (what name : string) : string + exn :=
  if String.eqb name "missing.pem" then inr ("Unable to open " ++ what)
  else inl name.

(** Endpoints are pairs of a host and a port, certificates are their
    subject lines, and a socket cannot be opened on port 1. *)
Definition sample_platform (posix : bool) (cores : N) : Platform := {|
  ep_type := string * string;
  show_ep := fun ep => fst ep ++ ":" ++ snd ep;
  cert_type := string;
  subject_oneline := fun c => c;
  pkey_type := string;
  time_duration := string;
  show_duration := fun d => d;
  algorithm_info_type := string;
  show_algorithm_info := fun a => a;
  cipher_algorithm_type := string;
  resolve := sample_resolve;
  lexical_cast_calg := fun s =>
    if String.eqb s "" then inr "bad lexical cast" else inl s;
  load_certificate := sample_load "certificate";
  load_private_key := sample_load "private key";
  server_open := fun ep =>
    if String.eqb (snd ep) "1" then Some "Permission denied" else None;
  signal_installed := fun _ => true;
  hardware_concurrency := cores;
  has_posix_stream_descriptor := posix
|}.

Definition sample_argv : list string :=
  ["schat"; "alice.crt"; "alice.key"; "0.0.0.0"; "12000"; "aes256-cbc";
   "sha256"].

Definition no_error : error_code := {| ec_value := 0; ec_message := "Success" |}.

Definition end_of_file : error_code :=
  {| ec_value := 2; ec_message := "End of file" |}.


(* ===================================================================== *)
(** * Further observations on lines and traces *)
(* ===================================================================== *)

(** A run of whitespace. *)
Fixpoint all_space (s : string) : bool :=
  match s with
  | EmptyString => true
  | String c rest => isspace c && all_space rest
  end.

Fixpoint no_space (s : string) : bool :=
  match s with
  | EmptyString => true
  | String c rest => negb (isspace c) && no_space rest
  end.

(** A word as [operator>>] reads it: not empty and free of whitespace. *)
Definition is_word (w : string) : bool :=
  negb (String.eqb w "") && no_space w.

(** What may follow a word on a line: nothing, or whitespace first. *)
Definition ends_word (tail : string) : bool :=
  match tail with
  | EmptyString => true
  | String c _ => isspace c
  end.

(** The line is a connect command: the marker, then connect as first
    word. *)
Definition is_connect_line (line : string) : bool :=
  Ascii.eqb (first_char line) "!" &&
  match extract (substr1 line) with
  | Some (command, _) => String.eqb command "connect"
  | None => false
  end.

Section Observations.

Context {P : Platform}.

(** Whether the output mutex is held after a trace. *)
Fixpoint lock_after (held : bool) (l : list event) : bool :=
  match l with
  | [] => held
  | Lock :: rest => lock_after true rest
  | Unlock :: rest => lock_after false rest
  | _ :: rest => lock_after held rest
  end.

Definition is_introduce (e : event) : bool :=
  match e with
  | AsyncIntroduceTo _ _ => true
  | _ => false
  end.

(** An operation asked of the engine: greet, introduce, request session,
    broadcast, or close. *)
Definition is_engine_operation (e : event) : bool :=
  is_greet e || is_introduce e || is_request_session e || is_broadcast e
  || closes_transport e.

Definition is_read_armed (e : event) : bool :=
  match e with
  | AsyncReadUntil => true
  | _ => false
  end.

Definition is_signal_registered (e : event) : bool :=
  match e with
  | SignalRegistered _ => true
  | _ => false
  end.

(** The stimuli whose function writes to the console without the lock,
    given the state of the hook: a handled signal that finds the hook set,
    and a line of input that was read and is a connect command. *)
Definition writes_unlocked (s : stimulus) (h : option action) : bool :=
  match s with
  | Signal code =>
      handled_signal code && match h with Some _ => true | None => false end
  | InputLine ec line => negb (ec_set ec) && is_connect_line line
  | _ => false
  end.

(** The stimuli that write under the lock or not at all, whatever the
    hook. *)
Definition quiet (s : stimulus) : bool :=
  match s with
  | Signal code => negb (handled_signal code)
  | InputLine ec line => ec_set ec || negb (is_connect_line line)
  | _ => true
  end.

(** The console line [multiple_handler] writes for one destination. *)
Definition result_line (r : ep_type * error_code) : string :=
  show_ep (fst r) ++ ": " ++ ec_message (snd r).

(** ** The signal handler, statement by statement

    [signal_handler] tests, announces, calls and clears the hook in four
    separate statements (lines 34-39), and nothing keeps a second signal
    from being handled between two of them: [signal] masks no other signal
    while a handler runs, and the handlers of two threads run side by
    side.  A handler in progress is described by the statement it is
    about to run. *)
Inductive handler_pc :=
| AtTest        (* if (stop_function) *)
| AtAnnounce    (* std::cerr << "Signal caught: stopping..." *)
| AtCall        (* stop_function() *)
| AtClear       (* stop_function = 0 *)
| Returned.

(** Where the handler of a signal starts: the [switch] sends the three
    handled signals to the test and every other signal to the end. *)
Definition start_of (code : Z) : handler_pc :=
  if handled_signal code then AtTest else Returned.

(** One statement of a handler.  The call reads the hook again: calling an
    empty [boost::function] throws [boost::bad_function_call]. *)
Definition handler_step (pc : handler_pc) : M handler_pc :=
  match pc with
  | AtTest =>
      f <- get_stop_function ;;
      ret (match f with Some _ => AtAnnounce | None => Returned end)
  | AtAnnounce => write Cerr "Signal caught: stopping..." ;; ret AtCall
  | AtCall =>
      f <- get_stop_function ;;
      match f with
      | Some a => emit (StopFunctionCall a) ;; ret AtClear
      | None => throw "call to empty boost::function"
      end
  | AtClear => set_stop_function None ;; ret Returned
  | Returned => ret Returned
  end.

Fixpoint update {A} (i : nat) (x : A) (l : list A) : list A :=
  match l, i with
  | [], _ => []
  | _ :: rest, O => x :: rest
  | y :: rest, S j => y :: update j x rest
  end.

(** Several handlers in progress, [pcs], advanced as a schedule tells: each
    entry of the schedule names the handler that runs its next statement. *)
Fixpoint run_handlers (schedule : list nat) (pcs : list handler_pc)
  : M (list handler_pc) :=
  match schedule with
  | [] => ret pcs
  | i :: rest =>
      match nth_error pcs i with
      | Some pc =>
          pc' <- handler_step pc ;;
          run_handlers rest (update i pc' pcs)
      | None => run_handlers rest pcs
      end
  end.





End Observations.

(* ===================================================================== *)
(** * Properties *)
(* ===================================================================== *)

(** ** The tokenizer *)

Lemma skipws_not_space (s : string) :
  match skipws s with
  | EmptyString => True
  | String c _ => isspace c = false
  end.
Proof.
  induction s as [|c s IH]; simpl; [exact I|].
  destruct (isspace c) eqn:E; [exact IH | exact E].
Qed.

(** A successful extraction yields a non-empty word. *)
Lemma extract_nonempty (iss w rest : string) :
  extract iss = Some (w, rest) -> w <> "".
Proof.
  unfold extract. pose proof (skipws_not_space iss) as H.
  destruct (skipws iss) as [|c s]; [discriminate|].
  simpl. rewrite H. destruct (take_word s). intros [= <- _]. discriminate.
Qed.

(** A word written out, followed by a space, is what the extraction
    returns. *)
Lemma take_word_app (w rest : string) :
  (forall c, In c (list_ascii_of_string w) -> isspace c = false) ->
  take_word (w ++ String " " rest) = (w, String " " rest).
Proof.
  induction w as [|c w IH]; simpl; intros H; [reflexivity|].
  rewrite (H c (or_introl eq_refl)), IH; [reflexivity|].
  intros d Hd. apply H. now right.
Qed.

(** ** The monad *)

Lemma swallow_exceptions_returns {P : Platform} (body : M unit) (h : option action) :
  value (swallow_exceptions body h) = inl tt.
Proof.
  unfold swallow_exceptions, try_catch.
  destruct (body h) as [evs h' [[]|e]]; reflexivity.
Qed.

(** ** The dispatcher, case by case *)

Lemma handle_read_line_text {P : Platform} (line : string) (h : option action) :
  first_char line <> "!"%char ->
  handle_read_line line h =
  Outcome [AsyncSendDataToAll CHANNEL_NUMBER_0 (list_byte_of_string line)
             MultipleHandler] h (inl tt).
Proof.
  intros H. unfold handle_read_line.
  destruct (Ascii.eqb_spec (first_char line) "!"); [contradiction|reflexivity].
Qed.

Lemma handle_read_line_no_command {P : Platform} (line : string) (h : option action) :
  first_char line = "!"%char ->
  extract (substr1 line) = None ->
  handle_read_line line h = Outcome [] h (inl tt).
Proof.
  intros H E. unfold handle_read_line. rewrite H, E. reflexivity.
Qed.

Lemma handle_read_line_unknown {P : Platform} (line command rest : string)
    (h : option action) :
  first_char line = "!"%char ->
  extract (substr1 line) = Some (command, rest) ->
  command <> "connect" -> command <> "quit" -> command <> "exit" ->
  handle_read_line line h = Outcome [] h (inl tt).
Proof.
  intros H E Hc Hq He. unfold handle_read_line. rewrite H, E. simpl.
  apply String.eqb_neq in Hc, Hq, He. rewrite Hc, Hq, He. reflexivity.
Qed.

Lemma handle_read_line_quit {P : Platform} (line command rest : string)
    (h : option action) :
  first_char line = "!"%char ->
  extract (substr1 line) = Some (command, rest) ->
  command = "quit" \/ command = "exit" ->
  handle_read_line line h = Outcome [ServerClose] h (inl tt).
Proof.
  intros H E [-> | ->]; unfold handle_read_line; rewrite H, E; reflexivity.
Qed.

Lemma handle_read_line_connect {P : Platform} (line rest : string) (h : option action) :
  first_char line = "!"%char ->
  extract (substr1 line) = Some ("connect", rest) ->
  let host := fst (extract_or_empty rest) in
  let port := fst (extract_or_empty (snd (extract_or_empty rest))) in
  handle_read_line line h =
  match resolve host port with
  | inl ep =>
      Outcome [AsyncGreet ep (HelloResponseHandler ep);
               Write Cout ("Contacting " ++ show_ep ep ++ "...")] h (inl tt)
  | inr ex =>
      Outcome [Write Cerr ("Unable to resolve the specified host/port: "
                           ++ ex)] h (inl tt)
  end.
Proof.
  intros H E. unfold handle_read_line. rewrite H, E. simpl.
  destruct (extract_or_empty rest) as [host iss2]. simpl.
  destruct (extract_or_empty iss2) as [port iss3]. simpl.
  unfold try_catch, bind, lift.
  destruct (resolve host port) as [ep|ex]; reflexivity.
Qed.

(** ** Decisions on inbound events *)

(** C2: [on_hello], [on_session_request] and [on_session] return the
    default they were given, whatever it is; [on_presentation] returns
    accept for every input and issues exactly one request-session
    operation, to the sender. *)
Theorem decisions_follow_default {P : Platform} :
  (forall sender d h, value (on_hello sender d h) = inl d) /\
  (forall sender calgs d h,
      value (on_session_request sender calgs d h) = inl d) /\
  (forall sender calg d h, value (on_session sender calg d h) = inl d) /\
  (forall sender sig_cert enc_cert is_new h,
      let o := on_presentation sender sig_cert enc_cert is_new h in
      value o = inl true /\
      filter is_request_session (events o) =
      [AsyncRequestSession sender (SimpleHandler "async_request_session()")]).
Proof.
  repeat split; intros; reflexivity.
Qed.

(** ** Chat text *)

(** C4: a non-empty line that does not start with the marker gives exactly
    one broadcast, on channel 0, carrying the bytes of the line, and nothing
    else. *)
Theorem text_line_is_broadcast {P : Platform} (line : string)
    (h : option action) :
  line <> "" ->
  first_char line <> "!"%char ->
  handle_read_line line h =
  Outcome [AsyncSendDataToAll 0%N (list_byte_of_string line) MultipleHandler]
          h (inl tt) /\
  string_of_list_byte (list_byte_of_string line) = line /\
  CHANNEL_NUMBER_0 = 0%N.
Proof.
  intros _ H. split; [|split].
  - apply (handle_read_line_text line h H).
  - apply string_of_list_byte_of_string.
  - reflexivity.
Qed.

Lemma text_line_is_broadcast_witness :
  @handle_read_line (sample_platform true 4) "hello" None =
  Outcome [AsyncSendDataToAll 0%N [x68; x65; x6c; x6c; x6f] MultipleHandler]
          None (inl tt) /\
  string_of_list_byte (list_byte_of_string "hello") = "hello" /\
  CHANNEL_NUMBER_0 = 0%N.
Proof.
  apply (@text_line_is_broadcast (sample_platform true 4) "hello" None);
    discriminate.
Defined.

(** ** Lines that do nothing *)

(** C3, as the program has it: a line that starts with the marker and whose
    first word is none of connect, quit and exit (or that has no word at
    all) leaves no trace: no event, the hook untouched, a normal return.
    The empty line is not such a line: its first character is not the
    marker, and it is broadcast like any other text, with an empty
    payload. *)
Theorem unknown_command_is_ignored {P : Platform} :
  (forall line h,
      first_char line = "!"%char ->
      (forall command rest,
          extract (substr1 line) = Some (command, rest) ->
          command <> "connect" /\ command <> "quit" /\ command <> "exit") ->
      handle_read_line line h = Outcome [] h (inl tt)) /\
  (forall h,
      handle_read_line "" h =
      Outcome [AsyncSendDataToAll CHANNEL_NUMBER_0 [] MultipleHandler] h
              (inl tt)).
Proof.
  split.
  - intros line h H U.
    destruct (extract (substr1 line)) as [[command rest]|] eqn:E.
    + destruct (U command rest eq_refl) as (Hc & Hq & He).
      exact (handle_read_line_unknown line h H E Hc Hq He).
    + exact (handle_read_line_no_command line h H E).
  - intros h. reflexivity.
Qed.

Lemma unknown_command_is_ignored_witness :
  @handle_read_line (sample_platform true 4) "!help me" None =
  Outcome [] None (inl tt).
Proof.
  apply (proj1 (@unknown_command_is_ignored (sample_platform true 4))).
  - reflexivity.
  - intros command rest E. vm_compute in E. injection E as <- _.
    repeat split; discriminate.
Defined.

(** C3 as stated fails on the empty line: a broadcast is issued. *)
Lemma empty_line_is_broadcast :
  let o := @handle_read_line (sample_platform true 4) "" None in
  events o = [AsyncSendDataToAll 0%N [] MultipleHandler] /\
  count is_broadcast (events o) = 1 /\
  events o <> [].
Proof.
  repeat split. discriminate.
Qed.

(** ** Inbound data *)



(** ** The connect command *)

(** C7: for a line made of the marker and the words connect, host and port
    (whatever follows), a successful resolution of host and port gives
    exactly one greet, to the resolved endpoint, whose completion handler
    runs [on_hello_response] for that endpoint; a failed resolution gives
    one line on the error console, no greet, and a normal return. *)
Theorem connect_greets_or_reports {P : Platform}
    (line iss1 host iss2 port iss3 : string) (h : option action) :
  first_char line = "!"%char ->
  extract (substr1 line) = Some ("connect", iss1) ->
  extract iss1 = Some (host, iss2) ->
  extract iss2 = Some (port, iss3) ->
  (forall ep,
      resolve host port = inl ep ->
      exists handler,
        handle_read_line line h =
        Outcome [AsyncGreet ep handler;
                 Write Cout ("Contacting " ++ show_ep ep ++ "...")]
                h (inl tt) /\
        count is_greet (events (handle_read_line line h)) = 1 /\
        forall ec results duration,
          deliver (completed handler ec results duration) =
          on_hello_response ep ec duration) /\
  (forall ex,
      resolve host port = inr ex ->
      handle_read_line line h =
      Outcome [Write Cerr ("Unable to resolve the specified host/port: "
                           ++ ex)] h (inl tt) /\
      count is_greet (events (handle_read_line line h)) = 0).
Proof.
  intros H E1 E2 E3.
  pose proof (handle_read_line_connect line h H E1) as L.
  unfold extract_or_empty in L. rewrite E2 in L. simpl in L.
  rewrite E3 in L. simpl in L.
  split.
  - intros ep R. rewrite R in L. exists (HelloResponseHandler ep).
    rewrite L. repeat split.
  - intros ex R. rewrite R in L. rewrite L. repeat split.
Qed.

Lemma connect_greets_or_reports_witness :
  (exists handler : @completion (sample_platform true 4),
      @handle_read_line (sample_platform true 4) "!connect 10.0.0.2 12000"
        None =
      Outcome
        [@AsyncGreet (sample_platform true 4) ("10.0.0.2", "12000") handler;
         Write Cout "Contacting 10.0.0.2:12000..."] None (inl tt)) /\
  @handle_read_line (sample_platform true 4) "!connect nowhere.invalid 12000"
    None =
  Outcome [Write Cerr
    "Unable to resolve the specified host/port: Host not found (authoritative)"]
    None (inl tt).
Proof.
  split.
  - destruct (proj1 (@connect_greets_or_reports (sample_platform true 4)
        "!connect 10.0.0.2 12000" " 10.0.0.2 12000" "10.0.0.2" " 12000"
        "12000" "" None eq_refl eq_refl eq_refl eq_refl)
        ("10.0.0.2", "12000") eq_refl) as (handler & L & _).
    exists handler. exact L.
  - exact (proj1 (proj2 (@connect_greets_or_reports (sample_platform true 4)
        "!connect nowhere.invalid 12000" " nowhere.invalid 12000"
        "nowhere.invalid" " 12000" "12000" "" None
        eq_refl eq_refl eq_refl eq_refl)
        "Host not found (authoritative)" eq_refl)).
Defined.

(** ** The connect command with words missing *)

(** C10, as the program has it: when fewer than two words follow connect,
    the missing ones are empty strings, and host and port are handed to the
    resolution as they are.  The dispatcher does not look at them: if the
    resolution fails, the failure is caught and reported on the error
    console, no greet is issued and the dispatcher returns normally; if the
    resolver accepts them, the greet is issued as for any other connect. *)
Theorem short_connect_is_resolved {P : Platform} (line iss1 : string)
    (h : option action) :
  first_char line = "!"%char ->
  extract (substr1 line) = Some ("connect", iss1) ->
  fewer_than_two_words iss1 ->
  exists host,
    (extract iss1 = None -> host = "") /\
    (forall w rest, extract iss1 = Some (w, rest) -> host = w) /\
    (forall ex,
        resolve host "" = inr ex ->
        handle_read_line line h =
        Outcome [Write Cerr ("Unable to resolve the specified host/port: "
                             ++ ex)] h (inl tt)) /\
    (forall ep,
        resolve host "" = inl ep ->
        handle_read_line line h =
        Outcome [AsyncGreet ep (HelloResponseHandler ep);
                 Write Cout ("Contacting " ++ show_ep ep ++ "...")]
                h (inl tt)).
Proof.
  intros H E1 F.
  pose proof (handle_read_line_connect line h H E1) as L.
  unfold extract_or_empty in L.
  destruct F as [E2 | (host & rest & E2 & E3)].
  - rewrite E2 in L. simpl in L. exists "".
    split; [reflexivity|]. split; [intros w rest E; congruence|].
    split; intros x R; rewrite R in L; exact L.
  - rewrite E2 in L. simpl in L. rewrite E3 in L. simpl in L. exists host.
    split; [congruence|]. split; [intros w r E; congruence|].
    split; intros x R; rewrite R in L; exact L.
Qed.

Lemma short_connect_is_resolved_witness :
  @handle_read_line (sample_platform true 4) "!connect" None =
  Outcome [Write Cerr
    "Unable to resolve the specified host/port: Host not found (authoritative)"]
    None (inl tt).
Proof.
  destruct (@short_connect_is_resolved (sample_platform true 4) "!connect" ""
              None eq_refl eq_refl (or_introl eq_refl))
    as (host & H0 & _ & Hfail & _).
  rewrite (H0 eq_refl) in Hfail.
  exact (Hfail "Host not found (authoritative)" eq_refl).
Defined.

(** C10 as stated fails when the resolver accepts an empty service, as
    [getaddrinfo] does for a null service: connect followed by a host alone
    is resolved, a greet is issued and nothing is reported. *)
Lemma short_connect_can_greet :
  let o := @handle_read_line (sample_platform true 4) "!connect localhost"
             None in
  fewer_than_two_words " localhost" /\
  events o =
  [@AsyncGreet (sample_platform true 4) ("localhost", "0")
     (@HelloResponseHandler (sample_platform true 4) ("localhost", "0"));
   Write Cout "Contacting localhost:0..."] /\
  count is_greet (events o) = 1.
Proof.
  split; [|split; reflexivity].
  right. exists "localhost", "". split; reflexivity.
Qed.

(** ** Traces of the worker threads *)

Lemma count_app {P : Platform} (p : event -> bool) (l1 l2 : list event) :
  count p (l1 ++ l2) = count p l1 + count p l2.
Proof.
  unfold count. now rewrite filter_app, length_app.
Qed.

Lemma count_excluded {P : Platform} (p q : event -> bool) (l : list event) :
  (forall e, q e = true -> p e = false) ->
  forallb q l = true -> count p l = 0.
Proof.
  intros D. unfold count. induction l as [|e l IH]; simpl; [reflexivity|].
  intros H. apply andb_true_iff in H as [He Hl].
  rewrite (D e He). now apply IH.
Qed.

Lemma bind_returned {P : Platform} {A B} (m : M A) (k : A -> M B)
    (h h' : option action) (evs : list event) (a : A) :
  m h = Outcome evs h' (inl a) ->
  bind m k h =
  Outcome (evs ++ events (k a h')) (hook (k a h')) (value (k a h')).
Proof.
  intros E. unfold bind. rewrite E. destruct (k a h'); reflexivity.
Qed.

Lemma write_results_trace {P : Platform}
    (results : list (ep_type * error_code)) (h : option action) :
  write_results results h =
  Outcome (map (fun r => Write Cout (show_ep (fst r) ++ ": "
                                     ++ ec_message (snd r))) results)
          h (inl tt).
Proof.
  induction results as [|[ep ec] rest IH]; [reflexivity|].
  simpl. unfold bind. simpl. rewrite IH. reflexivity.
Qed.

(** Every outcome of the dispatcher. *)
Lemma handle_read_line_outcome {P : Platform} (line : string)
    (h : option action) :
  exists evs,
    handle_read_line line h = Outcome evs h (inl tt) /\
    forallb from_worker evs = true /\
    (writes_locked false evs = true -> count is_write evs = 0).
Proof.
  unfold handle_read_line.
  destruct (Ascii.eqb (first_char line) "!");
    [|eexists; repeat split; reflexivity].
  destruct (extract (substr1 line)) as [[command iss1]|];
    [|eexists; repeat split; reflexivity].
  destruct (String.eqb command "connect").
  - destruct (extract_or_empty iss1) as [host iss2].
    destruct (extract_or_empty iss2) as [port iss3].
    unfold try_catch, bind, lift.
    destruct (resolve host port) as [ep|ex]; simpl;
      eexists; repeat split; discriminate.
  - destruct (String.eqb command "quit" || String.eqb command "exit");
      eexists; repeat split; reflexivity.
Qed.

(** A stimulus other than a signal leaves the hook alone, returns normally
    and performs worker events only. *)
Lemma deliver_outcome {P : Platform} (s : stimulus) (h : option action) :
  is_signal s = false ->
  exists evs,
    deliver s h = Outcome evs h (inl tt) /\ forallb from_worker evs = true.
Proof.
  destruct s; intros S; try discriminate S; simpl;
    try (eexists; split; reflexivity).
  - (* a line of input *)
    unfold handle_read_input.
    destruct (handle_read_line_outcome line h) as (evs & E & F & _).
    destruct has_posix_stream_descriptor, (ec_set ec); simpl.
    + eexists; split; reflexivity.
    + rewrite (@bind_returned _ _ _ _ _ _ _ _ _ E). simpl. eexists; split; [reflexivity|].
      rewrite forallb_app, F. reflexivity.
    + eexists; split; reflexivity.
    + exists evs. split; assumption.
  - (* the results of a broadcast *)
    unfold multiple_handler, scoped_lock. rewrite write_results_trace. simpl.
    eexists; split; [reflexivity|]. simpl.
    rewrite forallb_app, andb_true_r. apply forallb_forall.
    intros e He. apply in_map_iff in He as (r & <- & _). reflexivity.
  - (* the response to a greet *)
    unfold on_hello_response, scoped_lock.
    destruct (ec_set ec); eexists; split; reflexivity.
Qed.

(** The signal handler, case by case. *)
Lemma signal_handler_outcome {P : Platform} (code : Z) (h : option action) :
  signal_handler code h =
  match h with
  | Some a =>
      if handled_signal code then
        Outcome [Write Cerr "Signal caught: stopping..."; StopFunctionCall a]
                None (inl tt)
      else Outcome [] h (inl tt)
  | None => Outcome [] None (inl tt)
  end.
Proof.
  unfold signal_handler. destruct (handled_signal code), h; reflexivity.
Qed.

(** One step of the pool: the calls of the hook it makes and what the hook
    can still contribute add up to what the hook could contribute before;
    no thread is created. *)
Lemma deliver_step {P : Platform} (s : stimulus) (h : option action) :
  value (deliver s h) = inl tt /\
  count is_stop_function_call (events (deliver s h))
  + pending (hook (deliver s h)) = pending h /\
  count is_create_thread (events (deliver s h)) = 0 /\
  count closes_input (events (deliver s h))
  <= count is_stop_function_call (events (deliver s h)).
Proof.
  destruct (is_signal s) eqn:S.
  - destruct s; try discriminate S. simpl.
    rewrite signal_handler_outcome.
    destruct h as [[]|], (handled_signal code); unfold count; simpl;
      repeat split; lia.
  - destruct (deliver_outcome s h S) as (evs & E & F). rewrite E. simpl.
    assert (C1 : count is_stop_function_call evs = 0)
      by (apply (count_excluded _ from_worker); [now intros []|exact F]).
    assert (C2 : count is_create_thread evs = 0)
      by (apply (count_excluded _ from_worker); [now intros []|exact F]).
    assert (C3 : count closes_input evs = 0)
      by (apply (count_excluded _ from_worker); [now intros []|exact F]).
    repeat split; lia.
Qed.

Lemma run_workers_cons {P : Platform} (s : stimulus) (rest : list stimulus)
    (h : option action) :
  let o := deliver s h in
  let o' := run_workers rest (hook o) in
  run_workers (s :: rest) h =
  Outcome (events o ++ events o') (hook o') (value o').
Proof.
  simpl. unfold bind. pose proof (proj1 (deliver_step s h)) as V.
  destruct (deliver s h) as [evs h' v]. simpl in *. subst v.
  destruct (run_workers rest h'); reflexivity.
Qed.

Lemma run_workers_steps {P : Platform} (stimuli : list stimulus)
    (h : option action) :
  value (run_workers stimuli h) = inl tt /\
  count is_stop_function_call (events (run_workers stimuli h))
  + pending (hook (run_workers stimuli h)) = pending h /\
  count is_create_thread (events (run_workers stimuli h)) = 0 /\
  count closes_input (events (run_workers stimuli h))
  <= count is_stop_function_call (events (run_workers stimuli h)).
Proof.
  revert h. induction stimuli as [|s rest IH]; intros h.
  - unfold count; simpl; repeat split; lia.
  - destruct (deliver_step s h) as (V & C & T & I).
    specialize (IH (hook (deliver s h))). destruct IH as (V' & C' & T' & I').
    simpl. unfold bind.
    destruct (deliver s h) as [evs h' v]. simpl in *. subst v.
    destruct (run_workers rest h') as [evs' h'' v']. simpl in *.
    rewrite !count_app. repeat split; [exact V'|lia|lia|lia].
Qed.

(** ** The trace of [main] *)

Lemma register_signal_handlers_outcome {P : Platform} (h : option action) :
  exists evs b,
    register_signal_handlers h = Outcome evs h (inl b) /\
    forallb from_registration evs = true.
Proof.
  unfold register_signal_handlers, register_one, bind, write, emit, ret.
  destruct (signal_installed SIGTERM), (signal_installed SIGINT),
    (signal_installed SIGABRT); simpl; do 2 eexists; split; reflexivity.
Qed.

Lemma create_threads_outcome {P : Platform} (n : nat) (h : option action) :
  create_threads n h = Outcome (repeat CreateThread n) h (inl tt).
Proof.
  induction n as [|n IH]; [reflexivity|].
  simpl. unfold bind. simpl. rewrite IH. reflexivity.
Qed.

(** [main], case by case: the wrong number of arguments, each way the
    startup can throw, and the complete run. *)
Lemma main_outcome {P : Platform} (argv : list string)
    (stimuli : list stimulus) (h : option action) :
  exists reg b,
    register_signal_handlers h = Outcome reg h (inl b) /\
    forallb from_registration reg = true /\
    main argv stimuli h =
    let failed e :=
      Outcome (reg ++ [Write Cerr ("Error: " ++ e)]) h (inl EXIT_FAILURE) in
    if negb (length argv =? 7)%nat then
      Outcome (reg ++ [Write Cerr usage]) h (inl EXIT_FAILURE)
    else
      match lexical_cast_calg (nth 5 argv "") with
      | inr e => failed e
      | inl calg =>
      match resolve (nth 3 argv "") (nth 4 argv "") with
      | inr e => failed e
      | inl listen_ep =>
      match load_certificate (nth 1 argv "") with
      | inr e => failed e
      | inl _ =>
      match load_private_key (nth 2 argv "") with
      | inr e => failed e
      | inl _ =>
      match server_open listen_ep with
      | Some e =>
          Outcome (reg ++ [SetCipherCapabilities [calg];
                           Write Cerr ("Error: " ++ e)]) h (inl EXIT_FAILURE)
      | None =>
          Outcome
            (reg ++
             [SetCipherCapabilities [calg]; ServerOpen listen_ep;
              SetCallbacks;
              Write Cout "Chat started. Type !quit to exit.";
              Write Cout ("Starting client with "
                          ++ show_N hardware_concurrency ++ " thread(s).")]
             ++ repeat CreateThread (N.to_nat hardware_concurrency)
             ++ arming_events
             ++ events (run_workers stimuli (Some armed_hook))
             ++ [JoinAll; Write Cout "Chat closing..."])
            None (inl EXIT_SUCCESS)
      end end end end end.
Proof.
  destruct (register_signal_handlers_outcome h) as (reg & b & R & F).
  exists reg, b. split; [exact R|]. split; [exact F|].
  unfold main. rewrite (@bind_returned _ _ _ _ _ _ _ _ _ R). cbv zeta.
  destruct (negb (length argv =? 7)%nat); [reflexivity|].
  destruct (lexical_cast_calg (nth 5 argv "")) as [calg|e]; [|reflexivity].
  destruct (resolve (nth 3 argv "") (nth 4 argv "")) as [ep|e];
    [|reflexivity].
  destruct (load_certificate (nth 1 argv "")) as [cert|e]; [|reflexivity].
  destruct (load_private_key (nth 2 argv "")) as [key|e]; [|reflexivity].
  pose proof (proj1 (run_workers_steps stimuli (Some armed_hook))) as V.
  unfold armed_hook, arming_events in *.
  unfold try_catch, bind, lift, ret, throw, emit, write, set_stop_function,
    open_server.
  simpl.
  destruct (server_open ep) as [e|]; [reflexivity|].
  simpl. rewrite create_threads_outcome.
  destruct has_posix_stream_descriptor; simpl;
    match goal with
    | |- context [run_workers stimuli ?x] =>
        destruct (run_workers stimuli x) as [evs h' v]
    end; simpl in V; subst v; simpl; rewrite <- ?app_assoc; reflexivity.
Qed.

Lemma count_registration {P : Platform} (p : event -> bool)
    (reg : list event) :
  (forall e, from_registration e = true -> p e = false) ->
  forallb from_registration reg = true -> count p reg = 0.
Proof.
  intros D F. exact (count_excluded p from_registration reg D F).
Qed.

Lemma count_repeat_create {P : Platform} (n : nat) :
  count is_create_thread (repeat CreateThread n) = n.
Proof.
  unfold count. induction n as [|n IH]; simpl; [reflexivity|].
  now rewrite IH.
Qed.

Lemma count_repeat_other {P : Platform} (p : event -> bool) (n : nat) :
  p CreateThread = false -> count p (repeat CreateThread n) = 0.
Proof.
  intros H. unfold count. induction n as [|n IH]; simpl; [reflexivity|].
  now rewrite H.
Qed.

(** The trace of a run whose startup goes through. *)
Lemma main_started {P : Platform} (argv : list string)
    (stimuli : list stimulus) (h : option action) :
  startup_succeeds argv ->
  exists reg calg listen_ep,
    forallb from_registration reg = true /\
    main argv stimuli h =
    Outcome
      (reg ++
       [SetCipherCapabilities [calg]; ServerOpen listen_ep; SetCallbacks;
        Write Cout "Chat started. Type !quit to exit.";
        Write Cout ("Starting client with " ++ show_N hardware_concurrency
                    ++ " thread(s).")]
       ++ repeat CreateThread (N.to_nat hardware_concurrency)
       ++ arming_events
       ++ events (run_workers stimuli (Some armed_hook))
       ++ [JoinAll; Write Cout "Chat closing..."])
      None (inl EXIT_SUCCESS).
Proof.
  intros (L & calg & ep & cert & key & E1 & E2 & E3 & E4 & E5).
  destruct (main_outcome argv stimuli h) as (reg & b & _ & F & M0).
  exists reg, calg, ep. split; [exact F|].
  rewrite M0. cbv zeta. rewrite L, E1, E2, E3, E4, E5. reflexivity.
Qed.

Lemma from_registration_startup {P : Platform} (l : list event) :
  forallb from_registration l = true -> forallb from_startup l = true.
Proof.
  intros F. apply forallb_forall. intros e He.
  pose proof (proj1 (forallb_forall _ _) F e He) as R.
  destruct e; try discriminate R; exact R.
Qed.

(** A run that [main] abandons before the pool works. *)
Ltac abandoned G :=
  right; eexists; split;
  [eassumption | rewrite forallb_app, G; reflexivity].

(** Either the startup goes through, or [main] returns the failure status
    having done nothing but startup work, the hook untouched. *)
Lemma main_cases {P : Platform} (argv : list string)
    (stimuli : list stimulus) (h : option action) :
  startup_succeeds argv \/
  exists evs,
    main argv stimuli h = Outcome evs h (inl EXIT_FAILURE) /\
    forallb from_startup evs = true.
Proof.
  destruct (main_outcome argv stimuli h) as (reg & b & _ & F & E).
  cbv zeta in E. apply from_registration_startup in F as G.
  destruct (length argv =? 7)%nat eqn:L; simpl in E; [|abandoned G].
  destruct (lexical_cast_calg (nth 5 argv "")) as [calg|e] eqn:E1;
    [|abandoned G].
  destruct (resolve (nth 3 argv "") (nth 4 argv "")) as [ep|e] eqn:E2;
    [|abandoned G].
  destruct (load_certificate (nth 1 argv "")) as [cert|e] eqn:E3;
    [|abandoned G].
  destruct (load_private_key (nth 2 argv "")) as [key|e] eqn:E4;
    [|abandoned G].
  destruct (server_open ep) as [e|] eqn:E5; [abandoned G|].
  left. split; [now apply Nat.eqb_eq|].
  exists calg, ep, cert, key. repeat split; assumption.
Qed.


(** ** The size of the thread pool *)

(** C6, as the program has it: when the startup goes through, the number of
    worker threads created is the number of hardware units reported,
    whatever it is; there is no lower bound, and no thread is created when
    the report is 0. *)
Theorem pool_has_hardware_concurrency_threads {P : Platform}
    (argv : list string) (stimuli : list stimulus) (h : option action) :
  startup_succeeds argv ->
  count is_create_thread (events (main argv stimuli h)) =
  N.to_nat hardware_concurrency.
Proof.
  intros S. destruct (main_started stimuli h S) as (reg & calg & ep & F & E).
  rewrite E. cbn [events]. rewrite !count_app.
  rewrite (count_registration is_create_thread reg); [|now intros []|exact F].
  rewrite count_repeat_create.
  rewrite (proj1 (proj2 (proj2 (run_workers_steps stimuli (Some armed_hook))))).
  unfold arming_events, count.
  destruct has_posix_stream_descriptor; simpl; lia.
Qed.

Lemma sample_startup_succeeds (posix : bool) (cores : N) :
  @startup_succeeds (sample_platform posix cores) sample_argv.
Proof.
  split; [reflexivity|].
  exists "aes256-cbc", ("0.0.0.0", "12000"), "alice.crt", "alice.key".
  repeat split.
Qed.

Lemma pool_has_hardware_concurrency_threads_witness :
  count is_create_thread
    (events (@main (sample_platform true 4) sample_argv [] None)) = 4.
Proof.
  exact (@pool_has_hardware_concurrency_threads (sample_platform true 4)
           sample_argv [] None (sample_startup_succeeds true 4)).
Defined.

(** C6 as stated fails when no hardware unit is reported: the run goes on
    without any worker thread, where the claim has one. *)
Lemma no_hardware_unit_no_thread :
  let o := @main (sample_platform true 0) sample_argv [] None in
  @hardware_concurrency (sample_platform true 0) = 0%N /\
  count is_create_thread (events o) = 0 /\
  count is_create_thread (events o) <> 1 /\
  value o = inl EXIT_SUCCESS.
Proof.
  repeat split. discriminate.
Qed.

(** ** The exit status *)

(** C9: [main] returns a non-zero status when the command line does not
    hold the program name and six arguments, and has then done nothing but
    register the signal handlers and write to the error console (no
    socket was opened); it returns a non-zero status when the startup
    throws; it returns 0 when the startup goes through and the run ends,
    and in no other case. *)
Theorem exit_status {P : Platform} (argv : list string)
    (stimuli : list stimulus) (h : option action) :
  let o := main argv stimuli h in
  EXIT_SUCCESS = 0%Z /\ EXIT_FAILURE <> 0%Z /\
  (length argv <> 7 ->
   value o = inl EXIT_FAILURE /\
   forallb from_registration (events o) = true /\
   count is_server_open (events o) = 0) /\
  (forall e, length argv = 7 -> startup_throws argv e ->
             value o = inl EXIT_FAILURE) /\
  (startup_succeeds argv -> value o = inl EXIT_SUCCESS) /\
  (value o = inl EXIT_SUCCESS -> startup_succeeds argv).
Proof.
  cbv zeta.
  destruct (main_outcome argv stimuli h) as (reg & b & _ & F & E).
  cbv zeta in E.
  split; [reflexivity|]. split; [discriminate|].
  split; [|split; [|split]].
  - intros L. apply Nat.eqb_neq in L. rewrite L in E. simpl in E.
    rewrite E. simpl. split; [reflexivity|].
    assert (G : forallb from_registration (reg ++ [Write Cerr usage]) = true)
      by (rewrite forallb_app, F; reflexivity).
    split; [exact G|].
    apply (count_excluded is_server_open from_registration);
      [now intros []|exact G].
  - intros e L T. rewrite L in E. simpl in E. rewrite E.
    destruct T as [T|[T|[T|[T|(ep & T1 & T2)]]]].
    + rewrite T. reflexivity.
    + destruct (lexical_cast_calg _); [|reflexivity]. rewrite T. reflexivity.
    + destruct (lexical_cast_calg _); [|reflexivity].
      destruct (resolve _ _); [|reflexivity]. rewrite T. reflexivity.
    + destruct (lexical_cast_calg _); [|reflexivity].
      destruct (resolve _ _); [|reflexivity].
      destruct (load_certificate _); [|reflexivity]. rewrite T. reflexivity.
    + destruct (lexical_cast_calg _); [|reflexivity]. rewrite T1.
      destruct (load_certificate _); [|reflexivity].
      destruct (load_private_key _); [|reflexivity]. rewrite T2. reflexivity.
  - intros S. destruct (main_started stimuli h S) as (? & ? & ? & _ & E').
    rewrite E'. reflexivity.
  - rewrite E. unfold startup_succeeds.
    destruct (length argv =? 7)%nat eqn:L; simpl; [|discriminate].
    apply Nat.eqb_eq in L.
    destruct (lexical_cast_calg _) as [calg|]; [|discriminate].
    destruct (resolve _ _) as [ep|]; [|discriminate].
    destruct (load_certificate _) as [cert|]; [|discriminate].
    destruct (load_private_key _) as [key|]; [|discriminate].
    destruct (server_open ep) eqn:O; [discriminate|].
    intros _. split; [exact L|]. exists calg, ep, cert, key. repeat split.
    exact O.
Qed.

Lemma exit_status_witness :
  value (@main (sample_platform true 4) ["schat"; "alice.crt"] [] None) =
  inl EXIT_FAILURE /\
  value (@main (sample_platform true 4)
           ["schat"; "missing.pem"; "alice.key"; "0.0.0.0"; "12000";
            "aes256-cbc"; "sha256"] [] None) = inl EXIT_FAILURE /\
  value (@main (sample_platform true 4)
           ["schat"; "alice.crt"; "alice.key"; "0.0.0.0"; "1";
            "aes256-cbc"; "sha256"] [] None) = inl EXIT_FAILURE /\
  value (@main (sample_platform true 4) sample_argv
           [InputLine no_error "hello"; InputLine end_of_file ""] None) =
  inl EXIT_SUCCESS.
Proof.
  split; [|split; [|split]].
  - apply (@exit_status (sample_platform true 4) ["schat"; "alice.crt"] []
             None). discriminate.
  - apply (proj1 (proj2 (proj2 (proj2 (@exit_status (sample_platform true 4)
             ["schat"; "missing.pem"; "alice.key"; "0.0.0.0"; "12000";
              "aes256-cbc"; "sha256"] [] None))))
             "Unable to open certificate" eq_refl).
    right. right. left. reflexivity.
  - apply (proj1 (proj2 (proj2 (proj2 (@exit_status (sample_platform true 4)
             ["schat"; "alice.crt"; "alice.key"; "0.0.0.0"; "1";
              "aes256-cbc"; "sha256"] [] None))))
             "Permission denied" eq_refl).
    right. right. right. right. exists ("0.0.0.0", "1"). split; reflexivity.
  - apply (@exit_status (sample_platform true 4) sample_argv
             [InputLine no_error "hello"; InputLine end_of_file ""] None).
    apply sample_startup_succeeds.
Defined.

(** ** The signal handler, statement by statement *)
















(** ** The stop hook *)




(** ** The output lock *)

(** The handlers of engine events and of completions write under the
    lock. *)
Lemma engine_handlers_write_locked {P : Platform} (s : stimulus)
    (h : option action) :
  match s with
  | Signal _ | InputLine _ _ => False
  | _ => True
  end ->
  writes_locked false (events (deliver s h)) = true.
Proof.
  destruct s; intros H; try contradiction; try reflexivity.
  - simpl. unfold multiple_handler, scoped_lock.
    rewrite write_results_trace. simpl.
    induction results as [|r rest IH]; [reflexivity|exact IH].
  - simpl. unfold on_hello_response, scoped_lock.
    destruct (ec_set ec); reflexivity.
Qed.

(** Every connect command writes one console line, and writes it without
    holding the lock. *)
Lemma connect_writes_unlocked {P : Platform} (line rest : string)
    (h : option action) :
  first_char line = "!"%char ->
  extract (substr1 line) = Some ("connect", rest) ->
  count is_write (events (handle_read_line line h)) = 1 /\
  writes_locked false (events (handle_read_line line h)) = false.
Proof.
  intros H E. rewrite (handle_read_line_connect line h H E). cbv zeta.
  destruct (resolve _ _); split; reflexivity.
Qed.

(** C8, on the program: on every platform and in every state of the hook,
    the connect command handled by a worker writes its one console line
    outside the output lock, whether the resolution succeeds or fails,
    whereas the handlers of inbound events and data run by the same workers
    write theirs under the lock. *)
Theorem dispatcher_writes_without_lock {P : Platform} (h : option action) :
  let o := handle_read_line "!connect 10.0.0.2 12000" h in
  count is_write (events o) = 1 /\
  writes_locked false (events o) = false /\
  (forall sender d, writes_locked false (events (on_hello sender d h)) = true)
  /\
  (forall sender channel_number data,
      writes_locked false (events (on_data sender channel_number data h))
      = true).
Proof.
  cbv zeta. split; [|split; [|split]].
  - exact (proj1 (connect_writes_unlocked "!connect 10.0.0.2 12000" h
                    eq_refl eq_refl)).
  - exact (proj2 (connect_writes_unlocked "!connect 10.0.0.2 12000" h
                    eq_refl eq_refl)).
  - intros sender d.
    exact (engine_handlers_write_locked (HelloReceived sender d) h I).
  - intros sender channel_number data.
    exact (engine_handlers_write_locked
             (DataReceived sender channel_number data) h I).
Qed.

(* ===================================================================== *)
(** * Further properties of the program *)
(* ===================================================================== *)

(** ** Words on a line *)

Lemma skipws_all_space (ws s : string) :
  all_space ws = true -> skipws (ws ++ s) = skipws s.
Proof.
  induction ws as [|c ws IH]; simpl; intros H; [reflexivity|].
  apply andb_true_iff in H as [Hc Hws]. rewrite Hc. now apply IH.
Qed.

Lemma take_word_word (w tail : string) :
  no_space w = true -> ends_word tail = true ->
  take_word (w ++ tail) = (w, tail).
Proof.
  intros Hw Ht. induction w as [|c w IH]; simpl in *.
  - destruct tail as [|d tail]; simpl in *; [reflexivity|].
    now rewrite Ht.
  - apply andb_true_iff in Hw as [Hc Hw]. apply negb_true_iff in Hc.
    rewrite Hc, (IH Hw). reflexivity.
Qed.

(** A word, whatever whitespace comes before it, is what the extraction
    returns, and what follows the word stays in the stream. *)
Lemma extract_word (ws w tail : string) :
  all_space ws = true -> is_word w = true -> ends_word tail = true ->
  extract (ws ++ w ++ tail) = Some (w, tail).
Proof.
  intros Hws Hw Ht. unfold extract, is_word in *.
  apply andb_true_iff in Hw as [Hne Hw].
  rewrite skipws_all_space by exact Hws.
  destruct w as [|c w]; [discriminate Hne|].
  simpl in Hw. apply andb_true_iff in Hw as [Hc Hw'].
  apply negb_true_iff in Hc.
  assert (S : skipws (String c w ++ tail) = String c w ++ tail)
    by (simpl; now rewrite Hc).
  rewrite S.
  change (Some (take_word (String c w ++ tail)) = Some (String c w, tail)).
  rewrite take_word_word; [reflexivity| |exact Ht].
  simpl. now rewrite Hc, Hw'.
Qed.

Lemma ends_word_space (ws rest : string) :
  all_space ws = true -> ws <> "" -> ends_word (ws ++ rest) = true.
Proof.
  destruct ws as [|c ws]; [congruence|]. simpl. intros H _.
  now apply andb_true_iff in H as [Hc _].
Qed.

(** X1: a connect command may be written with any whitespace before the
    command word and between the words, and with anything after the port:
    the dispatcher asks for the resolution of exactly the host and the port
    written, and what follows the port is ignored. *)
Theorem connect_line_resolves_host_and_port {P : Platform}
    (ws0 ws1 host ws2 port tail : string) (h : option action) :
  all_space ws0 = true ->
  all_space ws1 = true -> ws1 <> "" ->
  all_space ws2 = true -> ws2 <> "" ->
  is_word host = true -> is_word port = true ->
  ends_word tail = true ->
  handle_read_line
    ("!" ++ ws0 ++ "connect" ++ ws1 ++ host ++ ws2 ++ port ++ tail) h =
  match resolve host port with
  | inl ep =>
      Outcome [AsyncGreet ep (HelloResponseHandler ep);
               Write Cout ("Contacting " ++ show_ep ep ++ "...")] h (inl tt)
  | inr ex =>
      Outcome [Write Cerr ("Unable to resolve the specified host/port: "
                           ++ ex)] h (inl tt)
  end.
Proof.
  intros H0 H1 N1 H2 N2 Hh Hp Ht.
  set (rest := ws1 ++ host ++ ws2 ++ port ++ tail).
  assert (E1 : extract (ws0 ++ "connect" ++ rest) = Some ("connect", rest))
    by (apply extract_word;
        [exact H0|reflexivity|apply ends_word_space; assumption]).
  assert (E2 : extract rest = Some (host, ws2 ++ port ++ tail))
    by (apply extract_word;
        [exact H1|exact Hh|apply ends_word_space; assumption]).
  assert (E3 : extract (ws2 ++ port ++ tail) = Some (port, tail))
    by (apply extract_word; assumption).
  pose proof (@handle_read_line_connect P
                ("!" ++ ws0 ++ "connect" ++ rest) rest h eq_refl E1) as L.
  unfold extract_or_empty in L. rewrite E2 in L. simpl fst in L.
  simpl snd in L. rewrite E3 in L. simpl fst in L. exact L.
Qed.

Lemma connect_line_resolves_host_and_port_witness :
  @handle_read_line (sample_platform true 4)
    "!  connect   10.0.0.2  12000 and more" None =
  Outcome [@AsyncGreet (sample_platform true 4) ("10.0.0.2", "12000")
             (@HelloResponseHandler (sample_platform true 4)
                ("10.0.0.2", "12000"));
           Write Cout "Contacting 10.0.0.2:12000..."] None (inl tt).
Proof.
  apply (@connect_line_resolves_host_and_port (sample_platform true 4)
           "  " "   " "10.0.0.2" "  " "12000" " and more" None);
    try reflexivity; discriminate.
Defined.

(** X2: the quit and exit commands take no argument into account: with any
    whitespace before the word and anything after it, the transport is
    closed by exactly one call of [server.close()], nothing is written, and
    the hook is left as it is. *)
Theorem quit_line_closes_transport {P : Platform} (ws0 command tail : string)
    (h : option action) :
  all_space ws0 = true ->
  command = "quit" \/ command = "exit" ->
  ends_word tail = true ->
  handle_read_line ("!" ++ ws0 ++ command ++ tail) h =
  Outcome [ServerClose] h (inl tt).
Proof.
  intros H0 C Ht.
  apply (@handle_read_line_quit P ("!" ++ ws0 ++ command ++ tail) command
           tail h eq_refl); [|exact C].
  change (extract (ws0 ++ command ++ tail) = Some (command, tail)).
  apply extract_word; [exact H0| |exact Ht].
  destruct C as [-> | ->]; reflexivity.
Qed.

Lemma quit_line_closes_transport_witness :
  @handle_read_line (sample_platform true 4) "! exit now" (Some CloseInput) =
  Outcome [ServerClose] (Some CloseInput) (inl tt).
Proof.
  apply (@quit_line_closes_transport (sample_platform true 4) " " "exit"
           " now" (Some CloseInput));
    [reflexivity|right; reflexivity|reflexivity].
Defined.

(** ** The registration of the signal handlers *)

(** X3: [register_signal_handlers] installs the handlers in the order
    SIGTERM, SIGINT, SIGABRT and gives up at the first signal that cannot
    be caught: it returns true exactly when the three were installed,
    writes one diagnostic when it returns false and none otherwise, and the
    signals after a failed one are not tried.  The hook is not touched. *)
Theorem register_signal_handlers_stops_at_first_failure {P : Platform}
    (h : option action) :
  let o := register_signal_handlers h in
  let t := signal_installed SIGTERM in
  let i := signal_installed SIGINT in
  let a := signal_installed SIGABRT in
  hook o = h /\
  value o = inl (t && i && a) /\
  count is_signal_registered (events o) =
  (if t then if i then if a then 3 else 2 else 1 else 0) /\
  count is_write (events o) = (if t && i && a then 0 else 1).
Proof.
  cbv zeta.
  unfold register_signal_handlers, register_one, bind, write, emit, ret,
    count.
  destruct (signal_installed SIGTERM), (signal_installed SIGINT),
    (signal_installed SIGABRT); repeat split.
Qed.

(** ** Completion handlers *)

Lemma count_map_writes {P : Platform} {A} (p : event -> bool)
    (f : A -> string) (l : list A) :
  (forall x, p (Write Cout x) = false) ->
  count p (map (fun r => Write Cout (f r)) l) = 0.
Proof.
  intros H. unfold count. induction l as [|r l IH]; simpl; [reflexivity|].
  now rewrite H.
Qed.

Lemma multiple_handler_outcome {P : Platform}
    (results : list (ep_type * error_code)) (h : option action) :
  multiple_handler results h =
  Outcome ([Lock] ++ map (fun r => Write Cout (result_line r)) results
           ++ [Unlock]) h (inl tt).
Proof.
  unfold multiple_handler, scoped_lock. rewrite write_results_trace.
  reflexivity.
Qed.

(** X4: [multiple_handler] takes the lock once, writes one line for each
    destination of the result map, in the order of the map, and releases the
    lock; it asks nothing of the engine.  An empty map gives no line. *)
Theorem multiple_handler_logs_each_result {P : Platform}
    (results : list (ep_type * error_code)) (h : option action) :
  multiple_handler results h =
  Outcome (Lock :: map (fun r => Write Cout (result_line r)) results
           ++ [Unlock]) h (inl tt) /\
  count is_write (events (multiple_handler results h)) = length results /\
  count is_engine_operation (events (multiple_handler results h)) = 0.
Proof.
  rewrite multiple_handler_outcome. split; [reflexivity|]. cbn [events].
  rewrite !count_app. split.
  - unfold count at 1 3. simpl. unfold count.
    induction results as [|r rest IH]; simpl; [reflexivity|].
    simpl in IH. lia.
  - rewrite (count_map_writes is_engine_operation result_line results)
      by reflexivity.
    reflexivity.
Qed.

(** X5: the handshake a connect command starts goes one step at a time.
    The completion of the greet, with an error, only logs; without an
    error it asks for exactly one introduction, to the endpoint that was
    greeted.  The completion of that introduction only logs.  Both write
    under the lock and leave the hook alone. *)
Theorem greet_response_drives_introduction {P : Platform} (ep : ep_type)
    (ec : error_code) (results : list (ep_type * error_code))
    (duration : time_duration) (h : option action) :
  let o := deliver (completed (HelloResponseHandler ep) ec results duration)
             h in
  let o' := deliver (completed (SimpleHandler "async_introduce_to()") ec
                       results duration) h in
  hook o = h /\ value o = inl tt /\
  writes_locked false (events o) = true /\
  filter is_engine_operation (events o) =
  (if ec_set ec then []
   else [AsyncIntroduceTo ep (SimpleHandler "async_introduce_to()")]) /\
  count is_write (events o) = (if ec_set ec then 1 else 2) /\
  hook o' = h /\ value o' = inl tt /\
  writes_locked false (events o') = true /\
  filter is_engine_operation (events o') = [] /\
  count is_write (events o') = 1.
Proof.
  cbv zeta. simpl. unfold on_hello_response, scoped_lock, count.
  destruct (ec_set ec); repeat split.
Qed.

(** ** What one stimulus can cause *)

Lemma handle_read_line_operations {P : Platform} (line : string)
    (h : option action) :
  count is_engine_operation (events (handle_read_line line h)) <= 1 /\
  count is_read_armed (events (handle_read_line line h)) = 0.
Proof.
  unfold handle_read_line, count.
  destruct (Ascii.eqb (first_char line) "!"); [|simpl; lia].
  destruct (extract (substr1 line)) as [[command iss1]|]; [|simpl; lia].
  destruct (String.eqb command "connect").
  - destruct (extract_or_empty iss1) as [host iss2].
    destruct (extract_or_empty iss2) as [port iss3].
    unfold try_catch, bind, lift.
    destruct (resolve host port) as [ep|ex]; simpl; lia.
  - destruct (String.eqb command "quit" || String.eqb command "exit");
      simpl; lia.
Qed.

Lemma deliver_operations {P : Platform} (s : stimulus) (h : option action) :
  count is_engine_operation (events (deliver s h)) <= 1.
Proof.
  destruct s; simpl; try (unfold count; simpl; lia).
  - rewrite signal_handler_outcome.
    destruct h as [[]|], (handled_signal code); unfold count; simpl; lia.
  - destruct (handle_read_line_operations line h) as [L _].
    unfold handle_read_input.
    destruct (handle_read_line_outcome line h) as (evs & E & _).
    rewrite E in L. simpl in L.
    destruct has_posix_stream_descriptor, (ec_set ec); simpl;
      try (unfold count; simpl; lia).
    + rewrite (@bind_returned _ _ _ _ _ _ _ _ _ E). simpl.
      rewrite count_app. unfold count at 2. simpl. lia.
    + rewrite E. exact L.
  - rewrite multiple_handler_outcome. cbn [events]. rewrite !count_app.
    rewrite (count_map_writes is_engine_operation result_line results)
      by reflexivity.
    unfold count. simpl. lia.
  - unfold on_hello_response, scoped_lock, count.
    destruct (ec_set ec); simpl; lia.
Qed.

(** X6: no function run by the pool asks more than one operation of the
    engine: whatever the stimulus and the state of the hook, its trace holds
    at most one greet, introduction, session request, broadcast or close.
    A run therefore never holds more operations than stimuli. *)
Theorem one_operation_per_stimulus {P : Platform} :
  (forall s h, count is_engine_operation (events (deliver s h)) <= 1) /\
  (forall stimuli h,
      count is_engine_operation (events (run_workers stimuli h))
      <= length stimuli).
Proof.
  split; [exact deliver_operations|].
  induction stimuli as [|s rest IH]; intros h.
  - unfold count. simpl. lia.
  - rewrite run_workers_cons. cbn [events length]. rewrite count_app.
    pose proof (deliver_operations s h).
    specialize (IH (hook (deliver s h))). lia.
Qed.

(** ** The hook during the work of the pool *)



(** ** The output lock, stimulus by stimulus *)

Lemma writes_locked_app {P : Platform} (l1 l2 : list event) (held : bool) :
  writes_locked held (l1 ++ l2) =
  writes_locked held l1 && writes_locked (lock_after held l1) l2.
Proof.
  revert held. induction l1 as [|e l1 IH]; intros held; [reflexivity|].
  destruct e; simpl; rewrite ?IH; try reflexivity.
  now rewrite andb_assoc.
Qed.

Lemma lock_after_app {P : Platform} (l1 l2 : list event) (held : bool) :
  lock_after held (l1 ++ l2) = lock_after (lock_after held l1) l2.
Proof.
  revert held. induction l1 as [|e l1 IH]; intros held; [reflexivity|].
  destruct e; simpl; rewrite ?IH; reflexivity.
Qed.

Lemma results_written_locked {P : Platform}
    (results : list (ep_type * error_code)) :
  let l := map (fun r => Write Cout (result_line r)) results in
  writes_locked true l = true /\ lock_after true l = true.
Proof.
  induction results as [|r rest [IH1 IH2]]; split; simpl; auto.
Qed.

(** The dispatcher and the lock: a connect command writes outside it, any
    other line writes nothing; the mutex is never left held. *)
Lemma handle_read_line_lock {P : Platform} (line : string)
    (h : option action) :
  writes_locked false (events (handle_read_line line h)) =
  negb (is_connect_line line) /\
  lock_after false (events (handle_read_line line h)) = false.
Proof.
  unfold handle_read_line, is_connect_line.
  destruct (Ascii.eqb (first_char line) "!"); [|split; reflexivity].
  destruct (extract (substr1 line)) as [[command iss1]|];
    [|split; reflexivity].
  destruct (String.eqb command "connect").
  - destruct (extract_or_empty iss1) as [host iss2].
    destruct (extract_or_empty iss2) as [port iss3].
    unfold try_catch, bind, lift.
    destruct (resolve host port) as [ep|ex]; split; reflexivity.
  - destruct (String.eqb command "quit" || String.eqb command "exit");
      split; reflexivity.
Qed.

Lemma deliver_lock {P : Platform} (s : stimulus) (h : option action) :
  writes_locked false (events (deliver s h)) = negb (writes_unlocked s h) /\
  lock_after false (events (deliver s h)) = false.
Proof.
  destruct s; simpl; try (split; reflexivity).
  - rewrite signal_handler_outcome.
    destruct h, (handled_signal code); split; reflexivity.
  - destruct (handle_read_line_lock line h) as [W L].
    destruct (handle_read_line_outcome line h) as (evs & E & _).
    rewrite E in W, L. simpl in W, L. unfold handle_read_input.
    destruct has_posix_stream_descriptor, (ec_set ec); simpl;
      try (split; reflexivity).
    + rewrite (@bind_returned _ _ _ _ _ _ _ _ _ E). simpl.
      rewrite writes_locked_app, lock_after_app, W, L. simpl.
      now rewrite andb_true_r.
    + rewrite E. split; assumption.
  - rewrite multiple_handler_outcome. cbn [events].
    destruct (results_written_locked results) as [W L].
    simpl. rewrite writes_locked_app, lock_after_app, W, L. split; reflexivity.
  - unfold on_hello_response, scoped_lock.
    destruct (ec_set ec); split; reflexivity.
Qed.

(** X8: which functions write to the console outside the output lock.  The
    trace of a stimulus has all its writes under the lock except in two
    cases: a handled signal that finds the hook set, and a line of input
    that was read without error and is a connect command.  In every case
    the mutex is released when the function returns. *)
Theorem unlocked_writes_characterized {P : Platform} (s : stimulus)
    (h : option action) :
  writes_locked false (events (deliver s h)) = negb (writes_unlocked s h) /\
  lock_after false (events (deliver s h)) = false.
Proof.
  exact (deliver_lock s h).
Qed.

(** X9: a run made of quiet stimuli only (no handled signal, no connect
    command) has every console write under the lock, whatever the engine
    events, completions and other lines it holds and in whatever order, and
    ends with the mutex released. *)
Theorem quiet_run_writes_locked {P : Platform} (stimuli : list stimulus)
    (h : option action) :
  forallb quiet stimuli = true ->
  writes_locked false (events (run_workers stimuli h)) = true /\
  lock_after false (events (run_workers stimuli h)) = false.
Proof.
  revert h. induction stimuli as [|s rest IH]; intros h Q; [split; reflexivity|].
  simpl in Q. apply andb_true_iff in Q as [Qs Qrest].
  rewrite run_workers_cons. cbn [events].
  destruct (deliver_lock s h) as [W L].
  destruct (IH (hook (deliver s h)) Qrest) as [W' L'].
  rewrite writes_locked_app, lock_after_app, W, L, W', L'.
  split; [|reflexivity]. rewrite andb_true_r.
  destruct s; simpl in *; try reflexivity.
  - apply negb_true_iff in Qs. now rewrite Qs.
  - destruct (ec_set ec); simpl in *; [reflexivity|]. now rewrite Qs.
Qed.

Lemma quiet_run_writes_locked_witness :
  writes_locked false
    (events (@run_workers (sample_platform true 4)
       [@HelloReceived (sample_platform true 4) ("10.0.0.2", "12000") true;
        InputLine no_error "hello";
        @DataReceived (sample_platform true 4) ("10.0.0.2", "12000") 0%N
          [x68; x69];
        Signal 1%Z;
        InputLine no_error "!quit"] None)) = true.
Proof.
  apply (@quiet_run_writes_locked (sample_platform true 4)
           [@HelloReceived (sample_platform true 4) ("10.0.0.2", "12000") true;
            InputLine no_error "hello";
            @DataReceived (sample_platform true 4) ("10.0.0.2", "12000") 0%N
          [x68; x69];
            Signal 1%Z;
            InputLine no_error "!quit"] None).
  reflexivity.
Defined.

(** ** The chain of reads *)

(** X10: [handle_read_input] keeps the chain of reads going exactly as long
    as reads succeed.  After a successful read the line is dispatched and
    then one new read is armed, after everything the line caused; after a
    failed read the line is not dispatched, whatever it holds, no read is
    armed, and the transport is closed.  The dispatcher itself never arms a
    read. *)
Theorem read_is_rearmed_unless_failed {P : Platform} (ec : error_code)
    (line : string) (h : option action) :
  let o := handle_read_input ec line h in
  hook o = h /\ value o = inl tt /\
  events o =
  (if ec_set ec then [ServerClose]
   else events (handle_read_line line h) ++ [AsyncReadUntil])%list /\
  count is_read_armed (events o) = (if ec_set ec then 0 else 1).
Proof.
  cbv zeta. unfold handle_read_input.
  destruct (handle_read_line_operations line h) as [_ A].
  destruct (handle_read_line_outcome line h) as (evs & E & _).
  rewrite E in A. cbn [events] in A.
  destruct (ec_set ec); simpl; [repeat split|].
  rewrite (@bind_returned _ _ _ _ _ _ _ _ _ E), E. cbn [events hook value].
  rewrite count_app, A. repeat split.
Qed.

(** ** A startup that fails *)

(** X11: when the startup does not go through, [main] leaves nothing
    behind: it returns the failure status with the hook as it was, and all
    it has done is register signal handlers, write to the error console
    and, when it got as far as [server.open], set the cipher capabilities
    of the engine.  It has created no thread, completed no opening of the
    socket, armed no read, and asked for no greet, introduction, session
    request, broadcast or close; nothing of what the pool would have
    received is processed. *)
Theorem failed_startup_leaves_nothing {P : Platform} (argv : list string)
    (stimuli : list stimulus) (h : option action) :
  ~ startup_succeeds argv ->
  let o := main argv stimuli h in
  value o = inl EXIT_FAILURE /\ hook o = h /\
  forallb from_startup (events o) = true /\
  count is_create_thread (events o) = 0 /\
  count is_server_open (events o) = 0 /\
  count is_read_armed (events o) = 0 /\
  count is_engine_operation (events o) = 0 /\
  main argv stimuli h = main argv [] h.
Proof.
  intros N. cbv zeta.
  destruct (main_cases argv stimuli h) as [S | (evs & E & F)];
    [contradiction|].
  destruct (main_cases argv [] h) as [S | (evs' & E' & F')];
    [contradiction|].
  assert (Same : main argv stimuli h = main argv [] h).
  { destruct (main_outcome argv stimuli h) as (reg & b & R & _ & M1).
    destruct (main_outcome argv [] h) as (reg' & b' & R' & _ & M2).
    rewrite R in R'. injection R' as <- <-.
    rewrite M1, M2. cbv zeta.
    destruct (negb (length argv =? 7)%nat) eqn:L; [reflexivity|].
    destruct (lexical_cast_calg _) as [calg|] eqn:E1; [|reflexivity].
    destruct (resolve _ _) as [ep|] eqn:E2; [|reflexivity].
    destruct (load_certificate _) as [cert|] eqn:E3; [|reflexivity].
    destruct (load_private_key _) as [key|] eqn:E4; [|reflexivity].
    destruct (server_open ep) eqn:E5; [reflexivity|].
    exfalso. apply N. split.
    - apply Nat.eqb_eq. now destruct (length argv =? 7)%nat.
    - exists calg, ep, cert, key. repeat split; assumption. }
  rewrite E. cbn [events hook value].
  rewrite !(count_excluded _ from_startup evs) by (try exact F; now intros []).
  repeat split; [exact F|]. rewrite <- E. exact Same.
Qed.

Lemma failed_startup_leaves_nothing_witness :
  @main (sample_platform true 4) ["schat"; "alice.crt"]
    [InputLine no_error "hello"] None =
  @main (sample_platform true 4) ["schat"; "alice.crt"] [] None.
Proof.
  apply (@failed_startup_leaves_nothing (sample_platform true 4)
           ["schat"; "alice.crt"] [InputLine no_error "hello"] None).
  intros [L _]. discriminate L.
Defined.

(** ** From a line typed to a line printed *)

(** X12: chat text crosses unchanged.  The payload the dispatcher
    broadcasts for a line of text, handed to [on_data] of a client that
    receives it on the same channel, is printed as the very line that was
    typed, after the sender and the channel number 0. *)
Theorem broadcast_text_is_printed_verbatim {P : Platform} (line : string)
    (sender : ep_type) (h h' : option action) :
  first_char line <> "!"%char ->
  exists channel payload,
    handle_read_line line h =
    Outcome [AsyncSendDataToAll channel payload MultipleHandler] h (inl tt)
    /\
    on_data sender channel payload h' =
    Outcome [Lock; Write Cout (show_ep sender ++ " (0): " ++ line); Unlock]
            h' (inl tt).
Proof.
  intros H. exists CHANNEL_NUMBER_0, (list_byte_of_string line). split.
  - exact (handle_read_line_text line h H).
  - unfold on_data, on_data_frame, swallow_exceptions, try_catch,
      scoped_lock, write, emit.
    rewrite string_of_list_byte_of_string. reflexivity.
Qed.

Lemma broadcast_text_is_printed_verbatim_witness :
  exists channel payload,
    @handle_read_line (sample_platform true 4) "hi all" None =
    Outcome [AsyncSendDataToAll channel payload MultipleHandler] None
            (inl tt) /\
    @on_data (sample_platform true 4) ("10.0.0.2", "12000") channel payload
      None =
    Outcome [Lock; Write Cout "10.0.0.2:12000 (0): hi all"; Unlock] None
            (inl tt).
Proof.
  apply (@broadcast_text_is_printed_verbatim (sample_platform true 4)
           "hi all" ("10.0.0.2", "12000") None None).
  discriminate.
Defined.

(** ** Ways to end a run *)

(** X13: with asynchronous input, a run ended by a handled signal followed
    by the failure of the pending read closes the input source once, through
    the hook, and the transport once, through the failed read; [main]
    returns the success status with the hook clear. *)
Theorem signal_then_failed_read_closes_each_once {P : Platform}
    (argv : list string) (code : Z) (ec : error_code) (line : string) :
  has_posix_stream_descriptor = true ->
  startup_succeeds argv ->
  handled_signal code = true ->
  ec_set ec = true ->
  let o := main argv [Signal code; InputLine ec line] None in
  count closes_input (events o) = 1 /\
  count closes_transport (events o) = 1 /\
  value o = inl EXIT_SUCCESS /\ hook o = None.
Proof.
  intros Hp S Hc He. cbv zeta.
  destruct (main_started [Signal code; InputLine ec line] None S)
    as (reg & calg & ep & F & E).
  rewrite E. cbn [events hook value]. rewrite !count_app.
  rewrite !(count_registration _ reg) by (try exact F; now intros []).
  rewrite !count_repeat_other by reflexivity.
  assert (R : events (run_workers [Signal code; InputLine ec line]
                        (Some armed_hook)) =
              [Write Cerr "Signal caught: stopping...";
               StopFunctionCall CloseInput; ServerClose]).
  { unfold armed_hook. rewrite Hp. simpl. unfold bind.
    rewrite signal_handler_outcome, Hc. unfold handle_read_input.
    rewrite Hp, He. reflexivity. }
  rewrite R. unfold arming_events. rewrite Hp. repeat split.
Qed.

Lemma signal_then_failed_read_closes_each_once_witness :
  let o := @main (sample_platform true 4) sample_argv
             [Signal SIGTERM; InputLine end_of_file ""] None in
  count closes_input (events o) = 1 /\
  count closes_transport (events o) = 1 /\
  value o = inl EXIT_SUCCESS /\ hook o = None.
Proof.
  apply (@signal_then_failed_read_closes_each_once (sample_platform true 4)
           sample_argv SIGTERM end_of_file "");
    [reflexivity|apply sample_startup_succeeds|reflexivity|reflexivity].
Defined.





(** X18: the handler tests, calls and clears the hook in separate
    statements, so handlers that overlap are not once-only.  With the hook
    set and the handlers of two handled signals in progress, there is an
    interleaving in which both call the hook (the second handler runs
    after the call of the first and before its clear), and one in which the
    first handler, whose test passed before the second ran, calls a hook
    that is already clear, which throws. *)
Theorem overlapping_handlers_call_twice {P : Platform} (a : action) :
  (exists schedule,
      let o := run_handlers schedule (map start_of [SIGINT; SIGTERM])
                 (Some a) in
      value o = inl [Returned; Returned] /\ hook o = None /\
      filter is_stop_function_call (events o) =
      [StopFunctionCall a; StopFunctionCall a]) /\
  (exists schedule,
      let o := run_handlers schedule (map start_of [SIGINT; SIGTERM])
                 (Some a) in
      value o = inr "call to empty boost::function" /\ hook o = None /\
      filter is_stop_function_call (events o) = [StopFunctionCall a]).
Proof.
  split.
  - exists [0; 0; 0; 1; 1; 1; 1; 0]. repeat split.
  - exists [0; 1; 1; 1; 1; 0; 0]. repeat split.
Qed.

(** ** The command line *)

(** X15: of the six arguments the last one, the digest algorithm, is never
    read: two command lines that differ only there give the same run, event
    for event. *)
Theorem digest_argument_is_ignored {P : Platform} (args : list string)
    (mdalg mdalg' : string) (stimuli : list stimulus) (h : option action) :
  length args = 6 ->
  main (args ++ [mdalg]) stimuli h = main (args ++ [mdalg']) stimuli h.
Proof.
  intros L. unfold main.
  rewrite !length_app, L.
  rewrite !(@app_nth1 _ args) by (rewrite L; lia).
  reflexivity.
Qed.

Lemma digest_argument_is_ignored_witness :
  @main (sample_platform true 4)
    (["schat"; "alice.crt"; "alice.key"; "0.0.0.0"; "12000"; "aes256-cbc"]
     ++ ["sha256"]) [] None =
  @main (sample_platform true 4)
    (["schat"; "alice.crt"; "alice.key"; "0.0.0.0"; "12000"; "aes256-cbc"]
     ++ ["md5"]) [] None.
Proof.
  apply (@digest_argument_is_ignored (sample_platform true 4)
           ["schat"; "alice.crt"; "alice.key"; "0.0.0.0"; "12000";
            "aes256-cbc"] "sha256" "md5" [] None).
  reflexivity.
Defined.

(** ** What the pool leaves to [main] *)

Lemma run_workers_excluded {P : Platform} (p : event -> bool)
    (stimuli : list stimulus) (h : option action) :
  (forall e, from_worker e = true -> p e = false) ->
  (forall a, p (StopFunctionCall a) = false) ->
  count p (events (run_workers stimuli h)) = 0.
Proof.
  intros W S. revert h.
  induction stimuli as [|s rest IH]; intros h; [reflexivity|].
  rewrite run_workers_cons. cbn [events]. rewrite count_app, IH.
  destruct (is_signal s) eqn:G.
  - destruct s; try discriminate G. simpl. rewrite signal_handler_outcome.
    assert (Wr : forall x, p (Write Cerr x) = false)
      by (intros x; now apply W).
    destruct h, (handled_signal code); unfold count; simpl;
      rewrite ?Wr, ?S; reflexivity.
  - destruct (deliver_outcome s h G) as (evs & E & F). rewrite E.
    cbn [events]. now rewrite (count_excluded p from_worker evs W F).
Qed.

(** X16: in a run whose startup goes through the listening socket is opened
    exactly once and the cipher capabilities are set before it is opened;
    nothing the pool receives opens a socket, registers a signal handler or
    creates a thread. *)
Theorem socket_is_opened_once {P : Platform} (argv : list string)
    (stimuli : list stimulus) (h : option action) :
  startup_succeeds argv ->
  count is_server_open (events (main argv stimuli h)) = 1 /\
  (forall h',
      count is_server_open (events (run_workers stimuli h')) = 0 /\
      count is_signal_registered (events (run_workers stimuli h')) = 0 /\
      count is_create_thread (events (run_workers stimuli h')) = 0) /\
  exists before calgs listen_ep after,
    events (main argv stimuli h) =
    (before ++ [SetCipherCapabilities calgs; ServerOpen listen_ep] ++ after)%list
    /\ count is_server_open before = 0.
Proof.
  intros S.
  assert (W : forall p h',
             (forall e, from_worker e = true -> p e = false) ->
             (forall a, p (StopFunctionCall a) = false) ->
             count p (events (run_workers stimuli h')) = 0)
    by (intros p h'; apply run_workers_excluded).
  destruct (main_started stimuli h S) as (reg & calg & ep & F & E).
  assert (R : count is_server_open reg = 0)
    by (apply count_registration; [now intros []|exact F]).
  split; [|split].
  - rewrite E. cbn [events]. rewrite !count_app, R.
    rewrite count_repeat_other by reflexivity.
    rewrite W by (try reflexivity; now intros []).
    unfold arming_events, count.
    destruct has_posix_stream_descriptor; reflexivity.
  - intros h'. repeat split; apply W; try reflexivity; now intros [].
  - exists reg, [calg], ep. eexists. split; [|exact R].
    rewrite E. cbn [events]. reflexivity.
Qed.

Lemma socket_is_opened_once_witness :
  count is_server_open
    (events (@main (sample_platform true 4) sample_argv
               [InputLine no_error "!connect 10.0.0.2 12000";
                InputLine end_of_file ""] None)) = 1.
Proof.
  apply (@socket_is_opened_once (sample_platform true 4) sample_argv
           [InputLine no_error "!connect 10.0.0.2 12000";
            InputLine end_of_file ""] None).
  apply sample_startup_succeeds.
Defined.

(** ** The operations inbound events cause *)


